(** * The DBT MCP session client and its tool adapters

    A shallow embedding of [agents/mcp_client.py] and of the tool-adapter and
    answer-extraction code of [agents/agent.py].

    Python objects with mutable attributes become records threaded through a
    state-and-exception monad; everything that leaves the process (the
    subprocess spawn, the MCP session, the teardown of a context manager) is
    an event appended to a trace, and its outcome is read from an environment
    that may answer differently at every point of the history. *)

From Stdlib Require Import String Ascii List Bool Arith Lia.
Import ListNotations.
Local Open Scope string_scope.

(** ** Python runtime values *)

Module Py.

(** The exception classes the code names or can meet.  [KeyboardInterrupt],
    [SystemExit] and [CancelledError] derive from [BaseException] only; a
    handler [except Exception] lets them through. *)
Inductive ExnClass : Type :=
| KeyboardInterrupt
| SystemExit
| CancelledError
| TimeoutError
| RuntimeError
| AttributeError
| TypeError
| OtherException (name : string).

(** [type(e).__name__] *)
Definition class_name (k : ExnClass) : string :=
  match k with
  | KeyboardInterrupt => "KeyboardInterrupt"
  | SystemExit => "SystemExit"
  | CancelledError => "CancelledError"
  | TimeoutError => "TimeoutError"
  | RuntimeError => "RuntimeError"
  | AttributeError => "AttributeError"
  | TypeError => "TypeError"
  | OtherException name => name
  end.

(** [isinstance(e, Exception)] *)
Definition is_Exception (k : ExnClass) : bool :=
  match k with
  | KeyboardInterrupt | SystemExit | CancelledError => false
  | _ => true
  end.

(** An exception instance: its class and [str(e)]. *)
Record Exn : Type := mkExn { exn_class : ExnClass; exn_str : string }.

Definition caught_by_Exception (e : Exn) : bool := is_Exception (exn_class e).

(** How a call ends. *)
Inductive Outcome (A : Type) : Type :=
| Return (a : A)
| Raise (e : Exn).
Arguments Return {A} a.
Arguments Raise {A} e.

(** A value whose only observable distinction is being a [str] or not;
    a non-[str] value is kept by its [repr]. *)
Inductive Value : Type :=
| Str (s : string)
| NonStr (repr : string).

(** [isinstance(v, str)] *)
Definition is_str (v : Value) : bool :=
  match v with Str _ => true | NonStr _ => false end.

Definition nl : string := String (ascii_of_nat 10) EmptyString.

(** [c * n] for a one-character string [c] *)
Fixpoint times (c : string) (n : nat) : string :=
  match n with
  | O => EmptyString
  | S n' => c ++ times c n'
  end.

(** [s[:n]] *)
Definition prefix_slice (n : nat) (s : string) : string := substring 0 n s.

(** Decimal rendering of [len(...)] inside an f-string. *)
Fixpoint digits (fuel n : nat) (acc : string) : string :=
  let d := String (ascii_of_nat (48 + n mod 10)) acc in
  match fuel with
  | O => d
  | S fuel' => if Nat.eqb (n / 10) 0 then d else digits fuel' (n / 10) d
  end.

Definition str_of_nat (n : nat) : string := digits n n EmptyString.

(** The source files carry their decorations as these byte sequences. *)
Definition bytes (l : list nat) : string :=
  fold_right (fun b s => String (ascii_of_nat b) s) EmptyString l.
Definition bullet : string := bytes [195; 162; 226; 130; 172; 194; 162].
Definition check_mark : string := bytes [195; 162; 197; 147; 226; 128; 156].
Definition magnifier : string := bytes [195; 176; 197; 184; 226; 128; 157].

End Py.
Export Py.

(** ** The world outside the process *)

(** The pair of streams of one spawned [dbt-mcp] subprocess. *)
Definition Transport : Type := nat.

(** [ClientSession(stdio, write)]: a session object over one transport. *)
Record ClientSession : Type := mkSession { session_transport : Transport }.

(** The keyword mapping handed to a tool, keys with rendered values. *)
Definition Arguments : Type := list (string * string).

(** A tool descriptor as the server reports it. *)
Record Tool : Type := mkTool {
  name : string;
  description : option string;
  inputSchema : option string
}.

(** One part of a tool result.  A text part has the attribute [text]; the
    other part classes of the protocol library (images, embedded resources)
    do not, and reading [.text] on them raises [AttributeError]. *)
Record ContentPart : Type := mkPart {
  part_class : string;
  part_text : option string
}.

(** The object returned by [session.call_tool]; [result_str] is what
    [str(result)] yields for it. *)
Record CallToolResult : Type := mkResult {
  content : list ContentPart;
  result_str : string
}.

(** What an [AsyncExitStack] holds: the context managers entered so far. *)
Inductive Resource : Type :=
| StdioStreams (t : Transport)
| SessionContext (s : ClientSession).

(** Innermost (last entered) first. *)
Definition AsyncExitStack : Type := list Resource.

Inductive Event : Type :=
| Print (line : string)
| Spawn (command : string) (args : list string)
| EnterSession (s : ClientSession)
| Initialize (s : ClientSession)
| ListTools (s : ClientSession)
| CallTool (s : ClientSession) (tool_name : string) (arguments : Arguments)
| ExitContext (r : Resource).

(** Everything but writing a line to standard output. *)
Definition is_io (ev : Event) : bool :=
  match ev with Print _ => false | _ => true end.

Definition Trace : Type := list Event.

(** The answers of the outside world, each a function of the history. *)
Record Env : Type := mkEnv {
  env_stdio_client : Trace -> Outcome Transport;
  env_session_enter : ClientSession -> Trace -> Outcome unit;
  env_initialize : ClientSession -> Trace -> Outcome unit;
  env_list_tools : ClientSession -> Trace -> Outcome (list Tool);
  env_call_tool : ClientSession -> string -> Arguments -> Trace -> Outcome CallToolResult;
  env_exit : Resource -> Trace -> Outcome unit;
  env_event_loop : Trace -> Outcome unit
}.

(** ** State and exceptions *)

Definition M (S A : Type) : Type := S -> Outcome A * S.

Definition ret {S A} (a : A) : M S A := fun s => (Return a, s).

Definition bind {S A B} (m : M S A) (k : A -> M S B) : M S B :=
  fun s =>
    match m s with
    | (Return a, s') => k a s'
    | (Raise e, s') => (Raise e, s')
    end.

Definition raise {S A} (e : Exn) : M S A := fun s => (Raise e, s).

(** [try: body  except Exception as e: handler e] *)
Definition try_except_Exception {S A} (body : M S A) (handler : Exn -> M S A) : M S A :=
  fun s =>
    match body s with
    | (Return a, s') => (Return a, s')
    | (Raise e, s') =>
        if caught_by_Exception e then handler e s' else (Raise e, s')
    end.

(** [try: body  finally: cleanup] *)
Definition try_finally {S A} (body : M S A) (cleanup : M S unit) : M S A :=
  fun s =>
    match body s with
    | (r, s') =>
        match cleanup s' with
        | (Return _, s'') => (r, s'')
        | (Raise e, s'') => (Raise e, s'')
        end
    end.

Declare Scope py_scope.
Delimit Scope py_scope with py.
Notation "x <- m ;; k" := (bind m (fun x => k))
  (at level 100, m at next level, right associativity) : py_scope.
Notation "m ;; k" := (bind m (fun _ => k))
  (at level 100, right associativity) : py_scope.
Local Open Scope py_scope.

(** [for x in l: body x] *)
Fixpoint for_each {S A} (l : list A) (body : A -> M S unit) : M S unit :=
  match l with
  | [] => ret tt
  | x :: rest => body x ;; for_each rest body
  end.

(** Truth value of an optional object reference ([None] is false, an object
    of a class without [__bool__] or [__len__] is true). *)
Definition truthy {A} (o : option A) : bool :=
  match o with Some _ => true | None => false end.

(** Truth value of an optional string ([None] and [""] are false). *)
Definition truthy_str (o : option string) : bool :=
  match o with
  | Some (String _ _) => true
  | _ => false
  end.

(** ** agents/mcp_client.py *)

Module mcp_client.

Record DBTMCPClient : Type := mkClient {
  session : option ClientSession;
  exit_stack : option AsyncExitStack;
  _connected : bool
}.

(** [DBTMCPClient.__init__] *)
Definition __init__ : DBTMCPClient := mkClient None None false.

(** What a method of one client object runs in: the object and the
    history of the process so far. *)
Record Frame : Type := mkFrame { self : DBTMCPClient; trace : Trace }.

Definition Method (A : Type) : Type := M Frame A.

Definition emit (ev : Event) : Method unit :=
  fun f => (Return tt, mkFrame (self f) (trace f ++ [ev])%list).

(** [print(line)], on a standard output that takes every line; [Printing]
    below has the methods over a standard output that can raise. *)
Definition print (line : string) : Method unit := emit (Print line).

(** The answer of the outside world at the present history. *)
Definition ask {A} (answer : Trace -> Outcome A) : Method A :=
  fun f => (answer (trace f), f).

Definition get_self : Method DBTMCPClient := fun f => (Return (self f), f).

Definition set_session (v : option ClientSession) : Method unit :=
  fun f => (Return tt,
            mkFrame (mkClient v (exit_stack (self f)) (_connected (self f))) (trace f)).

Definition set_exit_stack (v : option AsyncExitStack) : Method unit :=
  fun f => (Return tt,
            mkFrame (mkClient (session (self f)) v (_connected (self f))) (trace f)).

Definition set_connected (v : bool) : Method unit :=
  fun f => (Return tt,
            mkFrame (mkClient (session (self f)) (exit_stack (self f)) v) (trace f)).

Definition none_has_no_attribute (attr : string) : Exn :=
  mkExn AttributeError ("'NoneType' object has no attribute '" ++ attr ++ "'").

(** [await self.exit_stack.enter_async_context(cm)]: [cm.__aenter__] runs,
    and only when it returns is [cm] registered on the stack. *)
Definition enter_async_context {A} (ev : Event) (aenter : Trace -> Outcome A)
    (registered : A -> Resource) : Method A :=
  c <- get_self ;;
  match exit_stack c with
  | None => raise (none_has_no_attribute "enter_async_context")
  | Some _ =>
      emit ev ;;
      a <- ask aenter ;;
      c' <- get_self ;;
      set_exit_stack (option_map (cons (registered a)) (exit_stack c')) ;;
      ret a
  end.

(** The unwinding loop of [AsyncExitStack.aclose]: every registered context
    is popped and exited, last entered first; an exception raised by one
    exit does not stop the loop, and the last one raised comes out at the
    end. *)
Fixpoint unwind (env : Env) (stack : list Resource) (pending : option Exn)
    : Method unit :=
  match stack with
  | [] => match pending with
          | None => ret tt
          | Some e => raise e
          end
  | r :: rest =>
      set_exit_stack (Some rest) ;;
      emit (ExitContext r) ;;
      fun f =>
        match env_exit env r (trace f) with
        | Return _ => unwind env rest pending f
        | Raise e => unwind env rest (Some e) f
        end
  end.

(** [await self.exit_stack.aclose()] *)
Definition aclose (env : Env) : Method unit :=
  c <- get_self ;;
  match exit_stack c with
  | None => raise (none_has_no_attribute "aclose")
  | Some stack => unwind env stack None
  end.

Definition server_command : string := "uvx".
Definition server_args : list string := ["--env-file"; "./.env"; "dbt-mcp"].

(** [DBTMCPClient._list_available_tools] *)
Definition _list_available_tools (env : Env) : Method unit :=
  c <- get_self ;;
  match session c with
  | None => ret tt
  | Some s =>
      try_except_Exception
        (emit (ListTools s) ;;
         tools <- ask (env_list_tools env s) ;;
         print (nl ++ "Available Tools (" ++ str_of_nat (length tools) ++ "):") ;;
         print (times "-" 60) ;;
         for_each tools (fun tool =>
           print ("  " ++ bullet ++ " " ++ name tool) ;;
           if truthy_str (description tool)
           then print ("    " ++ match description tool with
                                 | Some d => d
                                 | None => ""
                                 end)
           else ret tt) ;;
         print (times "-" 60))
        (fun e => print ("Failed to list tools: " ++ exn_str e))
  end.

(** The [try] block of [connect]. *)
Definition connect_try (env : Env) : Method unit :=
  set_exit_stack (Some []) ;;
  stdio_transport <-
    enter_async_context (Spawn server_command server_args)
      (env_stdio_client env) StdioStreams ;;
  let new_session := mkSession stdio_transport in
  s <- enter_async_context (EnterSession new_session)
         (fun tr => match env_session_enter env new_session tr with
                    | Return _ => Return new_session
                    | Raise e => Raise e
                    end)
         SessionContext ;;
  set_session (Some s) ;;
  emit (Initialize s) ;;
  ask (env_initialize env s) ;;
  set_connected true ;;
  print "Successfully connected to DBT MCP Server" ;;
  _list_available_tools env.

(** The [except Exception as e] block of [connect]. *)
Definition connect_except (env : Env) (e : Exn) : Method unit :=
  print ("Failed to connect to MCP Server: " ++ exn_str e) ;;
  c <- get_self ;;
  (if truthy (exit_stack c)
   then aclose env ;; set_exit_stack None
   else ret tt) ;;
  raise e.

(** [DBTMCPClient.connect] *)
Definition connect (env : Env) : Method unit :=
  c <- get_self ;;
  if _connected c then print "Already connected to MCP Server"
  else try_except_Exception (connect_try env) (connect_except env).

Definition not_connected : Exn :=
  mkExn RuntimeError "Not connected to MCP Server. Call connect() first.".

(** [arguments or {}] *)
Definition or_empty (arguments : option Arguments) : Arguments :=
  match arguments with
  | Some (kv :: rest) => kv :: rest
  | _ => []
  end.

(** [DBTMCPClient.call_tool] *)
Definition call_tool (env : Env) (tool_name : string)
    (arguments : option Arguments) : Method CallToolResult :=
  c <- get_self ;;
  if negb (_connected c) || negb (truthy (session c)) then raise not_connected
  else
    try_except_Exception
      (match session c with
       | None => raise (none_has_no_attribute "call_tool")
       | Some s =>
           emit (CallTool s tool_name (or_empty arguments)) ;;
           ask (env_call_tool env s tool_name (or_empty arguments))
       end)
      (fun e =>
         print ("Failed to call tool '" ++ tool_name ++ "': " ++ exn_str e) ;;
         raise e).

(** [DBTMCPClient.list_tools] *)
Definition list_tools (env : Env) : Method (list Tool) :=
  c <- get_self ;;
  if negb (_connected c) || negb (truthy (session c)) then raise not_connected
  else
    match session c with
    | None => raise (none_has_no_attribute "list_tools")
    | Some s =>
        emit (ListTools s) ;;
        ask (env_list_tools env s)
    end.

(** [DBTMCPClient.close] *)
Definition close (env : Env) : Method unit :=
  c <- get_self ;;
  if truthy (exit_stack c)
  then
    try_finally
      (try_except_Exception
         (aclose env ;; print "MCP Server connection closed")
         (fun e => print ("Error closing connection: " ++ exn_str e)))
      (set_exit_stack None ;;
       set_session None ;;
       set_connected false)
  else ret tt.

(** [DBTMCPClient.is_connected] *)
Definition is_connected : Method bool :=
  c <- get_self ;; ret (_connected c).

(** [DBTMCPClient.__aenter__]; the object entered is the receiver. *)
Definition __aenter__ (env : Env) : Method unit := connect env.

(** [DBTMCPClient.__aexit__] *)
Definition __aexit__ (env : Env) : Method unit := close env.

(** *** The module's global and the two functions on it *)

(** The objects constructed so far, by address, the module global
    [_client_instance] and the history of the process. *)
Record Process : Type := mkProcess {
  objects : list DBTMCPClient;
  _client_instance : option nat;
  history : Trace
}.

Definition Fn (A : Type) : Type := M Process A.

Fixpoint store (a : nat) (c : DBTMCPClient) (l : list DBTMCPClient)
    : list DBTMCPClient :=
  match l, a with
  | [], _ => []
  | _ :: rest, O => c :: rest
  | x :: rest, S a' => x :: store a' c rest
  end.

(** Run a method on the object at an address. *)
Definition on {A} (a : nat) (m : Method A) : Fn A :=
  fun p =>
    match nth_error (objects p) a with
    | Some c =>
        match m (mkFrame c (history p)) with
        | (r, f) =>
            (r, mkProcess (store a (self f) (objects p)) (_client_instance p) (trace f))
        end
    | None => (Raise (mkExn (OtherException "ReferenceError") "no object at this address"), p)
    end.

(** [DBTMCPClient()]: a new object, at a new address. *)
Definition new_DBTMCPClient : Fn nat :=
  fun p =>
    (Return (length (objects p)),
     mkProcess (objects p ++ [__init__])%list (_client_instance p) (history p)).

Definition get_global : Fn (option nat) := fun p => (Return (_client_instance p), p).

Definition set_global (v : option nat) : Fn unit :=
  fun p => (Return tt, mkProcess (objects p) v (history p)).

(** [get_mcp_client] *)
Definition get_mcp_client (env : Env) : Fn nat :=
  g <- get_global ;;
  (match g with
   | None => a <- new_DBTMCPClient ;; set_global (Some a)
   | Some _ => ret tt
   end) ;;
  g' <- get_global ;;
  match g' with
  | None => raise (none_has_no_attribute "is_connected")
  | Some a =>
      connected <- on a is_connected ;;
      (if negb connected then on a (connect env) else ret tt) ;;
      ret a
  end.

(** [close_global_client] *)
Definition close_global_client (env : Env) : Fn unit :=
  g <- get_global ;;
  match g with
  | Some a => on a (close env) ;; set_global None
  | None => ret tt
  end.

End mcp_client.

(** ** agents/agent.py *)

Module agent.
Import mcp_client.

Definition say (line : string) : Fn unit :=
  fun p => (Return tt,
            mkProcess (objects p) (_client_instance p) (history p ++ [Print line])%list).

Definition ask_world {A} (answer : Trace -> Outcome A) : Fn A :=
  fun p => (answer (history p), p).

Definition has_no_attribute (class attr : string) : Exn :=
  mkExn AttributeError ("'" ++ class ++ "' object has no attribute '" ++ attr ++ "'").

(** The coroutine [_call] inside [sync_call_mcp_tool]. *)
Definition _call (env : Env) (tool_name : string) (kwargs : Arguments) : Fn string :=
  client <- get_mcp_client env ;;
  result <- on client (call_tool env tool_name (Some kwargs)) ;;
  match content result with
  | first :: _ =>
      match part_text first with
      | Some text => ret text
      | None => raise (has_no_attribute (part_class first) "text")
      end
  | [] => ret (result_str result)
  end.

(** [sync_call_mcp_tool], the function closed over [tool_name] that
    [create_mcp_tool_wrapper] builds.  Obtaining an event loop for the
    calling thread is the environment's business; it can fail. *)
Definition sync_call_mcp_tool (env : Env) (tool_name : string)
    (kwargs : Arguments) : Fn string :=
  try_except_Exception
    (ask_world (env_event_loop env) ;;
     _call env tool_name kwargs)
    (fun e => ret ("Error calling MCP tool '" ++ tool_name ++ "': " ++ exn_str e)).

(** What [StructuredTool.from_function] is given. *)
Record StructuredTool : Type := mkStructuredTool {
  func : Arguments -> Fn string;
  tool_name : string;
  tool_description : string
}.

(** [create_mcp_tool_wrapper] *)
Definition create_mcp_tool_wrapper (env : Env) (tool_name : string)
    (tool_description : option string) (tool_schema : option string)
    : StructuredTool :=
  mkStructuredTool
    (sync_call_mcp_tool env tool_name)
    tool_name
    (match tool_description with
     | Some (String c d) => String c d
     | _ => "MCP tool: " ++ tool_name
     end).

(** The loop of [discover_mcp_tools], [langchain_tools] being the list
    built so far. *)
Fixpoint wrap_each (env : Env) (tools : list Tool)
    (langchain_tools : list StructuredTool) : Fn (list StructuredTool) :=
  match tools with
  | [] => ret langchain_tools
  | mcp_tool :: rest =>
      match description mcp_tool with
      | None => raise (mkExn TypeError "'NoneType' object is not subscriptable")
      | Some d =>
          say ("  " ++ bullet ++ " " ++ name mcp_tool ++ ": "
               ++ prefix_slice 60 d ++ "...") ;;
          let langchain_tool :=
            create_mcp_tool_wrapper env (name mcp_tool) (description mcp_tool)
              (inputSchema mcp_tool) in
          wrap_each env rest (langchain_tools ++ [langchain_tool])%list
      end
  end.

(** [discover_mcp_tools] *)
Definition discover_mcp_tools (env : Env) : Fn (list StructuredTool) :=
  say (magnifier ++ " Discovering MCP tools...") ;;
  client <- get_mcp_client env ;;
  tools <- on client (list_tools env) ;;
  say (check_mark ++ " Found " ++ str_of_nat (length tools) ++ " MCP tools") ;;
  langchain_tools <- wrap_each env tools [] ;;
  say (check_mark ++ " Created " ++ str_of_nat (length langchain_tools)
       ++ " LangChain tool wrappers" ++ nl) ;;
  ret langchain_tools.

(** A message object of the orchestration library: the attributes
    [ask_agent] looks for, each present or not. *)
Record Message : Type := mkMessage {
  msg_class : string;
  msg_type : option string;
  msg_content : option Value
}.

(** The mapping an agent turn returns: its ["messages"] entry, when there
    is one, and what [str] yields for the whole mapping. *)
Record TurnResult : Type := mkTurnResult {
  messages : option (list Message);
  turn_str : string
}.

(** The compiled agent, by what one [invoke] on a question does. *)
Record Agent : Type := mkAgent { invoke : string -> Outcome TurnResult }.

(** [hasattr(msg, 'type') and msg.type == 'ai'] *)
Definition is_ai (msg : Message) : bool :=
  match msg_type msg with
  | Some t => String.eqb t "ai"
  | None => false
  end.

(** [hasattr(msg, 'content') and isinstance(msg.content, str)] *)
Definition has_str_content (msg : Message) : bool :=
  match msg_content msg with
  | Some v => is_str v
  | None => false
  end.

(** The [for] loop of [ask_agent] over the messages in the order it
    meets them, with the [return str(result)] after it. *)
Fixpoint scan (reversed_messages : list Message) (result : TurnResult)
    : Outcome Value :=
  match reversed_messages with
  | [] => Return (Str (turn_str result))
  | msg :: rest =>
      if is_ai msg then
        match msg_content msg with
        | Some v => Return v
        | None => Raise (has_no_attribute (msg_class msg) "content")
        end
      else if has_str_content msg then
        match msg_content msg with
        | Some v => Return v
        | None => Raise (has_no_attribute (msg_class msg) "content")
        end
      else scan rest result
  end.

(** [result.get("messages", [])] *)
Definition get_messages (result : TurnResult) : list Message :=
  match messages result with
  | Some l => l
  | None => []
  end.

(** [ask_agent]; [get_agent] is the outcome of the call [get_agent()]. *)
Definition ask_agent (get_agent : Outcome Agent) (question : string)
    : Outcome Value :=
  let body :=
    match get_agent with
    | Raise e => Raise e
    | Return agent =>
        match invoke agent question with
        | Raise e => Raise e
        | Return result => scan (rev (get_messages result)) result
        end
    end in
  match body with
  | Return v => Return v
  | Raise e =>
      match exn_class e with
      | KeyboardInterrupt => Return (Str "Query interrupted by user.")
      | TimeoutError => Return (Str "Query timed out.")
      | k =>
          if is_Exception k
          then Return (Str ("Sorry, an error occurred: " ++ class_name k
                            ++ " - " ++ exn_str e))
          else Raise e
      end
  end.

End agent.

(** ** Concrete worlds *)

Module Scenarios.
Import mcp_client agent.

Definition list_models : Tool :=
  mkTool "list_models" (Some "List the models of the project") None.
Definition get_lineage : Tool :=
  mkTool "get_lineage" (Some "") (Some "{}").

Definition text_part (s : string) : ContentPart := mkPart "TextContent" (Some s).
Definition image_part : ContentPart := mkPart "ImageContent" None.

Definition three_models : CallToolResult :=
  mkResult [text_part "3 models"] "content=[TextContent(text='3 models')]".

(** A server that starts, shakes hands and answers every request. *)
Definition healthy : Env :=
  mkEnv (fun _ => Return 1)
        (fun _ _ => Return tt)
        (fun _ _ => Return tt)
        (fun _ _ => Return [list_models; get_lineage])
        (fun _ _ _ _ => Return three_models)
        (fun _ _ => Return tt)
        (fun _ => Return tt).

Definition with_stdio_client (env : Env) (v : Trace -> Outcome Transport) : Env :=
  mkEnv v (env_session_enter env) (env_initialize env) (env_list_tools env)
        (env_call_tool env) (env_exit env) (env_event_loop env).

Definition with_initialize (env : Env) (v : ClientSession -> Trace -> Outcome unit) : Env :=
  mkEnv (env_stdio_client env) (env_session_enter env) v (env_list_tools env)
        (env_call_tool env) (env_exit env) (env_event_loop env).

Definition with_call_tool (env : Env)
    (v : ClientSession -> string -> Arguments -> Trace -> Outcome CallToolResult) : Env :=
  mkEnv (env_stdio_client env) (env_session_enter env) (env_initialize env)
        (env_list_tools env) v (env_exit env) (env_event_loop env).

Definition with_exit (env : Env) (v : Resource -> Trace -> Outcome unit) : Env :=
  mkEnv (env_stdio_client env) (env_session_enter env) (env_initialize env)
        (env_list_tools env) (env_call_tool env) v (env_event_loop env).

(** The subprocess starts but the protocol handshake fails. *)
Definition handshake_fails : Env :=
  with_initialize healthy
    (fun _ _ => Raise (mkExn (OtherException "McpError") "handshake failed")).

(** The subprocess cannot be started. *)
Definition spawn_fails : Env :=
  with_stdio_client healthy
    (fun _ => Raise (mkExn (OtherException "FileNotFoundError") "uvx")).

(** The server answers a call with an image followed by a text. *)
Definition image_then_text : CallToolResult :=
  mkResult [image_part; text_part "lineage.png shows 3 models"]
           "content=[ImageContent(...), TextContent(...)]".
Definition answers_with_image : Env :=
  with_call_tool healthy (fun _ _ _ _ => Return image_then_text).

(** The remote call fails. *)
Definition call_fails : Env :=
  with_call_tool healthy
    (fun _ _ _ _ => Raise (mkExn (OtherException "McpError") "unknown model")).

(** The user interrupts the process while a call is in flight. *)
Definition call_interrupted : Env :=
  with_call_tool healthy (fun _ _ _ _ => Raise (mkExn KeyboardInterrupt "")).

(** The user interrupts the process while the streams are being closed. *)
Definition teardown_interrupted : Env :=
  with_exit healthy (fun _ _ => Raise (mkExn KeyboardInterrupt "")).

(** Closing the streams fails. *)
Definition teardown_fails : Env :=
  with_exit healthy
    (fun r _ => match r with
                | StdioStreams _ => Raise (mkExn RuntimeError "cancel scope")
                | SessionContext _ => Return tt
                end).

Definition fresh_process : Process := mkProcess [] None [].

(** A client after one successful [connect] in the healthy world. *)
Definition connected_client : DBTMCPClient :=
  mkClient (Some (mkSession 1))
           (Some [SessionContext (mkSession 1); StdioStreams 1]) true.

End Scenarios.

(** ** Notions the properties are stated with *)

(** [t] occurs in [s]. *)
Definition contains (s t : string) : Prop :=
  exists before after, s = before ++ t ++ after.

Module Lifecycle.
Import mcp_client.

(** A raised flag comes with both handles. *)
Definition flag_implies_handles (c : DBTMCPClient) : Prop :=
  _connected c = true -> session c <> None /\ exit_stack c <> None.

(** The test [not self._connected or not self.session] that guards
    [call_tool] and [list_tools]. *)
Definition guard (c : DBTMCPClient) : bool :=
  negb (_connected c) || negb (truthy (session c)).

(** The global, when set, is the address of an object. *)
Definition well_formed (p : Process) : Prop :=
  forall a, _client_instance p = Some a -> a < length (objects p).

(** The object at an address is connected. *)
Definition connected_at (p : Process) (a : nat) : Prop :=
  exists c, nth_error (objects p) a = Some c /\ _connected c = true.

End Lifecycle.

Module RoundTrip.
Import mcp_client agent.

(** The places where the body of [sync_call_mcp_tool] can raise [e],
    leaving the process in [p']: obtaining an event loop, acquiring the
    connection, the remote call, and reading the text of the result. *)
Inductive raises (env : Env) (tool_name : string) (kwargs : Arguments)
    (p : Process) (e : Exn) (p' : Process) : Prop :=
| at_event_loop :
    env_event_loop env (history p) = Raise e ->
    p' = p ->
    raises env tool_name kwargs p e p'
| at_connection :
    env_event_loop env (history p) = Return tt ->
    get_mcp_client env p = (Raise e, p') ->
    raises env tool_name kwargs p e p'
| at_remote_call (client : nat) (p1 : Process) :
    env_event_loop env (history p) = Return tt ->
    get_mcp_client env p = (Return client, p1) ->
    on client (call_tool env tool_name (Some kwargs)) p1 = (Raise e, p') ->
    raises env tool_name kwargs p e p'
| at_extraction (client : nat) (p1 : Process) (result : CallToolResult)
    (first : ContentPart) (rest : list ContentPart) :
    env_event_loop env (history p) = Return tt ->
    get_mcp_client env p = (Return client, p1) ->
    on client (call_tool env tool_name (Some kwargs)) p1 = (Return result, p') ->
    content result = first :: rest ->
    part_text first = None ->
    e = has_no_attribute (part_class first) "text" ->
    raises env tool_name kwargs p e p'.

(** The message the wrapper returns for a failure. *)
Definition error_text (tool_name : string) (e : Exn) : string :=
  "Error calling MCP tool '" ++ tool_name ++ "': " ++ exn_str e.


End RoundTrip.

Module Turn.
Import agent.

(** A message the loop of [ask_agent] passes over. *)
Definition skipped (msg : Message) : Prop :=
  is_ai msg = false /\ has_str_content msg = false.

Definition human (text : string) : Message :=
  mkMessage "HumanMessage" (Some "human") (Some (Str text)).
Definition ai (text : string) : Message :=
  mkMessage "AIMessage" (Some "ai") (Some (Str text)).
Definition tool (text : string) : Message :=
  mkMessage "ToolMessage" (Some "tool") (Some (Str text)).

(** An agent whose turn ends on the output of a tool. *)
Definition ends_on_tool_output : Agent :=
  mkAgent (fun question =>
    Return (mkTurnResult
              (Some [human question; ai "We have 3 tables."; tool "orders, customers, items"])
              "{'messages': [...]}")).

(** An agent that always gives the same answer. *)
Definition always_answers (answer : string) : Agent :=
  mkAgent (fun question =>
    Return (mkTurnResult (Some [human question; ai answer]) "{'messages': [...]}")).

End Turn.

Module Wording.

(** Follows the specification's words, "the first text payload found in
    the result": the text of the first part that carries one. *)
Fixpoint spec_first_text_found (parts : list ContentPart) : option string :=
  match parts with
  | [] => None
  | part :: rest =>
      match part_text part with
      | Some text => Some text
      | None => spec_first_text_found rest
      end
  end.

(** Follows the specification's words, "the latest assistant-authored
    text": the string content of the last assistant message. *)
Fixpoint spec_latest_assistant_text (reversed_messages : list agent.Message)
    : option string :=
  match reversed_messages with
  | [] => None
  | msg :: rest =>
      match agent.is_ai msg, agent.msg_content msg with
      | true, Some (Str text) => Some text
      | _, _ => spec_latest_assistant_text rest
      end
  end.

End Wording.

(** ** More worlds *)

Module Worlds.
Import mcp_client agent.

Definition with_list_tools (env : Env)
    (v : ClientSession -> Trace -> Outcome (list Tool)) : Env :=
  mkEnv (env_stdio_client env) (env_session_enter env) (env_initialize env) v
        (env_call_tool env) (env_exit env) (env_event_loop env).

(** The server shakes hands but fails every list request. *)
Definition listing_fails : Env :=
  with_list_tools Scenarios.healthy
    (fun _ _ => Raise (mkExn (OtherException "McpError") "tools/list not supported")).


(** A process whose global client is connected in the healthy world. *)
Definition serving : Process :=
  snd (get_mcp_client Scenarios.healthy Scenarios.fresh_process).

End Worlds.

(** ** agents/test/test_mcp.py *)

Module test_mcp.
Import mcp_client agent.


(** [arg.split('=', 1)] for an [arg] with ['=' in arg]: the text before the
    first ['='] and the text after it; [None] when there is no ['=']. *)
Fixpoint split_at_equals (arg : string) : option (string * string) :=
  match arg with
  | EmptyString => None
  | String c rest =>
      if Ascii.eqb c "="%char then Some (EmptyString, rest)
      else match split_at_equals rest with
           | Some (key, value) => Some (String c key, value)
           | None => None
           end
  end.

(** [args[key] = value] on a dict kept in insertion order. *)
Fixpoint dict_set (key value : string) (args : Arguments) : Arguments :=
  match args with
  | [] => [(key, value)]
  | (k, v) :: rest =>
      if String.eqb k key then (k, value) :: rest
      else (k, v) :: dict_set key value rest
  end.

(** [args.get(key)] *)
Fixpoint dict_get (key : string) (args : Arguments) : option string :=
  match args with
  | [] => None
  | (k, v) :: rest => if String.eqb k key then Some v else dict_get key rest
  end.

(** The loop of the [__main__] block over [sys.argv[2:]], from the dict
    built so far. *)
Fixpoint parse_args (argv : list string) (args : Arguments) : Arguments :=
  match argv with
  | [] => args
  | arg :: rest =>
      match split_at_equals arg with
      | Some (key, value) => parse_args rest (dict_set key value args)
      | None => parse_args rest args
      end
  end.

(** [needle in text] at the start of [text] *)
Fixpoint starts_with (needle text : string) : bool :=
  match needle, text with
  | EmptyString, _ => true
  | String a needle', String b text' => Ascii.eqb a b && starts_with needle' text'
  | String _ _, EmptyString => false
  end.

(** [needle in text] *)
Fixpoint occurs (needle text : string) : bool :=
  starts_with needle text
  || match text with
     | EmptyString => false
     | String _ text' => occurs needle text'
     end.

(** A loop [for tool in tools: if wanted(tool.name.lower()): test_tool =
    tool.name; break], from the value [test_tool] has before it. *)
Fixpoint first_named (lower : string -> string) (wanted : string -> bool)
    (tools : list Tool) (test_tool : option string) : option string :=
  match tools with
  | [] => test_tool
  | tool :: rest =>
      if wanted (lower (name tool)) then Some (name tool)
      else first_named lower wanted rest test_tool
  end.

(** The choice of the tool to try in [test_connection]; [lower] is the
    runtime's [str.lower]. *)
Definition choose_test_tool (lower : string -> string) (tools : list Tool)
    : option string :=
  let test_tool :=
    first_named lower (fun n => occurs "discovery" n || occurs "list" n) tools None in
  let test_tool :=
    if negb (truthy_str test_tool)
    then first_named lower (fun n => occurs "model" n) tools test_tool
    else test_tool in
  if negb (truthy_str test_tool) && negb (Nat.eqb (length tools) 0)
  then match tools with
       | tool :: _ => Some (name tool)
       | [] => test_tool
       end
  else test_tool.

(** ['=' in arg] *)
Fixpoint has_equals (arg : string) : bool :=
  match arg with
  | EmptyString => false
  | String c rest => Ascii.eqb c "="%char || has_equals rest
  end.

End test_mcp.

(** ** agents/agent.py: building the agent *)

Module agent_factory.
Import mcp_client agent.

(** [SYSTEM_PROMPT] *)
Definition SYSTEM_PROMPT : string :=
"You are a data asset discovery assistant that helps users understand the tables and fields in their DBT project.

Your tasks:
1. Understand user questions about data tables
2. Use the available DBT tools to query project metadata
3. Provide clear, concise, and friendly responses in English

Response requirements:
- Present information in a clear format (use lists, sections, etc.)
- If uncertain, ask for more information
- Keep responses concise and highlight key information
- Focus on discovery - execution tools are disabled for safety

You have access to DBT metadata tools. Use them to answer questions about:
- Available tables and models
- Table structures and schemas
- Data lineage and dependencies
- Documentation and descriptions
".

(** What [ChatOpenAI(...)] is given. *)
Record ChatOpenAI : Type := mkChatOpenAI {
  model : string;
  temperature : nat;
  api_key : string
}.

(** What the process finds around it when it builds the agent: the
    environment variable, and the orchestration library's constructor. *)
Record Host : Type := mkHost {
  OPENAI_API_KEY : option string;
  create_react_agent : ChatOpenAI -> list StructuredTool -> string -> Outcome Agent
}.

Definition api_key_not_set : Exn :=
  mkExn (OtherException "ValueError")
        ("OPENAI_API_KEY environment variable is not set. "
         ++ "Please set it in your .env file or environment.").

(** [create_dbt_agent]; [asyncio.run] runs the discovery to its end. *)
Definition create_dbt_agent (host : Host) (env : Env) : Fn Agent :=
  match OPENAI_API_KEY host with
  | Some (String c key) =>
      let llm := mkChatOpenAI "gpt-4o-mini" 0 (String c key) in
      tools <- discover_mcp_tools env ;;
      fun p => (create_react_agent host llm tools SYSTEM_PROMPT, p)
  | _ => raise api_key_not_set
  end.

(** The module of [agent.py] at run time: the process, and the global
    [_agent]. *)
Record Program : Type := mkProgram {
  process : Process;
  _agent : option Agent
}.

(** [get_agent] *)
Definition get_agent (host : Host) (env : Env) : M Program Agent :=
  fun prog =>
    match _agent prog with
    | Some a => (Return a, prog)
    | None =>
        match create_dbt_agent host env (process prog) with
        | (Return a, p) => (Return a, mkProgram p (Some a))
        | (Raise e, p) => (Raise e, mkProgram p None)
        end
    end.

(** A host with a key and a library that builds the agent it is asked for. *)
Definition ready (answer : string) : Host :=
  mkHost (Some "sk-test") (fun _ _ _ => Return (Turn.always_answers answer)).

(** A host without a key. *)
Definition keyless : Host :=
  mkHost None (fun _ _ _ => Return (Turn.always_answers "unused")).

Definition starting : Program := mkProgram Scenarios.fresh_process None.

End agent_factory.

(** ** agents/mcp_cli.py *)

Module mcp_cli.

(** What the command-line program does that can be seen from outside. *)
Inductive Io : Type :=
| Stdout (line : string)
| Stderr (line : string)
| Prompt (text : string)
| Launch (command : string) (args : list string)
| Run (user : string)
| Shutdown.

(** What arrives at a call of [input]. *)
Inductive Keyboard : Type :=
| Line (text : string)
| EOF
| CtrlC.

(** What the program finds around it: the environment variables, the file
    system, the runtime's [str.strip], and the agent library by what
    entering the agent, one [run] and leaving the agent do. *)
Record Host : Type := mkHost {
  OPENAI_API_KEY : option string;
  DBT_MCP_ENV : option string;
  OPENAI_MODEL_var : option string;
  abspath_dot_env : string;
  isfile : string -> bool;
  strip : string -> string;
  agent_enter : list Io -> Outcome unit;
  agent_run : string -> list Io -> Outcome string;
  agent_exit : list Io -> Outcome unit
}.

(** [DBT_ENV] *)
Definition DBT_ENV (host : Host) : string :=
  match DBT_MCP_ENV host with
  | Some path => path
  | None => abspath_dot_env host
  end.

(** [OPENAI_MODEL] *)
Definition OPENAI_MODEL (host : Host) : string :=
  match OPENAI_MODEL_var host with
  | Some m => m
  | None => "gpt-5-mini"
  end.

Definition cross : string := bytes [226; 157; 140].
Definition tick : string := bytes [226; 156; 133].
Definition wave : string := bytes [240; 159; 145; 139].

(** [user in ("/exit", "/quit")] *)
Definition is_quit (user : string) : bool :=
  String.eqb user "/exit" || String.eqb user "/quit".

(** The [while True] loop of [main]: what is left to arrive at the
    keyboard, and what has been seen so far.  A keyboard with nothing left
    is at its end of file. *)
Fixpoint chat (host : Host) (keyboard : list Keyboard) (io : list Io)
    : Outcome unit * list Io :=
  match keyboard with
  | Line text :: rest =>
      let user := strip host text in
      let io1 := (io ++ [Prompt "You > "])%list in
      if String.eqb user "" then chat host rest io1
      else if is_quit user then (Return tt, (io1 ++ [Stdout (wave ++ " Bye")])%list)
      else
        let io2 := (io1 ++ [Run user])%list in
        match agent_run host user io2 with
        | Return output =>
            chat host rest
              (io2 ++ [Stdout (nl ++ "Assistant >" ++ nl ++ output ++ nl)])%list
        | Raise e =>
            if caught_by_Exception e
            then chat host rest
                   (io2 ++ [Stderr (cross ++ " Error: " ++ exn_str e ++ nl)])%list
            else (Raise e, io2)
        end
  | _ =>
      (Return tt, (io ++ [Prompt "You > "; Stdout (nl ++ wave ++ " Bye")])%list)
  end.

(** [sys.exit(1)] *)
Definition exit_1 : Exn := mkExn SystemExit "1".

(** [main] *)
Definition main (host : Host) (keyboard : list Keyboard) : Outcome unit * list Io :=
  if negb (truthy_str (OPENAI_API_KEY host)) then
    (Raise exit_1,
     [Stderr (cross ++ " Please set the OPENAI_API_KEY environment variable first")])
  else if negb (isfile host (DBT_ENV host)) then
    (Raise exit_1,
     [Stderr (cross ++ " Cannot find .env file: " ++ DBT_ENV host ++ nl
              ++ "   Please set the DBT_MCP_ENV environment variable to point to dbt-mcp's .env")])
  else
    let io :=
      [Stdout (tick ++ " Ready. Enter your question to start the conversation (type /exit to quit)" ++ nl);
       Launch "uvx" ["--env-file"; DBT_ENV host; "dbt-mcp"]] in
    match agent_enter host io with
    | Raise e => (Raise e, io)
    | Return _ =>
        match chat host keyboard io with
        | (r, io1) =>
            let io2 := (io1 ++ [Shutdown])%list in
            match agent_exit host io2 with
            | Raise e => (Raise e, io2)
            | Return _ => (r, io2)
            end
        end
    end.

(** The prompts on which the agent was run. *)
Fixpoint runs (io : list Io) : list string :=
  match io with
  | [] => []
  | Run user :: rest => user :: runs rest
  | _ :: rest => runs rest
  end.

(** The launches of the server. *)
Fixpoint launches (io : list Io) : list (list string) :=
  match io with
  | [] => []
  | Launch _ args :: rest => args :: launches rest
  | _ :: rest => launches rest
  end.

(** Leading blanks removed. *)
Fixpoint lstrip (s : string) : string :=
  match s with
  | String c rest => if Ascii.eqb c " "%char then lstrip rest else s
  | EmptyString => EmptyString
  end.

(** A host with its key and its file, whose agent repeats the question;
    its [strip] removes leading blanks only, which is enough for the lines
    typed below. *)
Definition echoing : Host :=
  mkHost (Some "sk-test") None None "/work/.env" (fun _ => true) lstrip
         (fun _ => Return tt)
         (fun user _ => Return ("You asked: " ++ user))
         (fun _ => Return tt).

(** The same host with the credentials file missing. *)
Definition without_file : Host :=
  mkHost (Some "sk-test") None None "/work/.env" (fun _ => false) lstrip
         (fun _ => Return tt)
         (fun user _ => Return ("You asked: " ++ user))
         (fun _ => Return tt).


(** The user interrupts every run. *)
Definition interrupted_run : Host :=
  mkHost (Some "sk-test") (Some "/etc/dbt/.env") None "/work/.env" (fun _ => true) lstrip
         (fun _ => Return tt)
         (fun _ _ => Raise (mkExn KeyboardInterrupt ""))
         (fun _ => Return tt).

(** What ends the loop: a quit command, the end of the input, an interrupt
    at the prompt. *)
Definition ends_the_chat (host : Host) (key : Keyboard) : bool :=
  match key with
  | Line text => negb (String.eqb (strip host text) "") && is_quit (strip host text)
  | EOF | CtrlC => true
  end.

End mcp_cli.

(** ** app.py *)

Module app.
Import agent.

(** One entry of [st.session_state.messages]. *)
Record ChatMessage : Type := mkChat { role : string; content : Value }.

(** [st.session_state]: its ["messages"] entry, when it has one. *)
Definition SessionState : Type := option (list ChatMessage).

(** What the user did that made the script run. *)
Inductive Interaction : Type :=
| Idle
| ClickExample (i : nat)
| ClickClear
| ChatInput (prompt : string).

(** How a run of the script ends: at its last line, at [st.stop()], at
    [st.rerun()], or with an exception. *)
Inductive Ending : Type :=
| Completed
| Stopped
| Rerun
| Raised (e : Exn).

(** The environment variable, and the outcome of [get_agent()] inside
    [ask_agent]. *)
Record Host : Type := mkHost {
  OPENAI_API_KEY : option string;
  get_agent : Outcome Agent
}.

Definition welcome_message : string :=
  mcp_cli.wave ++ " Hello! I'm your Data Asset Discovery Assistant.

I can help you:
- Find tables and models in your DBT project
- Understand table field structures and meanings
- Explore data assets

Try asking me a question, or click on the examples in the sidebar!".

Definition welcome : ChatMessage := mkChat "assistant" (Str welcome_message).

Definition example_questions : list string :=
  ["What tables do we have?";
   "Are there any order-related tables?";
   "Describe the structure of the dim_customers table in detail";
   "Which tables contain customer information?";
   "Tell me about tables related to sales data";
   "List all dimension tables"].

Definition user_says (text : string) : ChatMessage := mkChat "user" (Str text).
Definition assistant_says (v : Value) : ChatMessage := mkChat "assistant" v.

(** The error message of the sidebar. *)
Definition example_error (e : Exn) : string :=
  "Sorry, an error occurred while processing your question: " ++ exn_str e.

(** The error message of the chat input. *)
Definition chat_error (e : Exn) : string :=
  "Sorry, an error occurred while processing your question.

**Error message:** " ++ exn_str e ++ "

Please ensure:
1. DBT MCP Server is running
2. OPENAI_API_KEY is configured correctly
3. Network connection is stable

You can try:
- Rephrase your question
- Click on example questions in the sidebar
- Clear the conversation and try again
".

(** The loop over the example buttons: [i] is the index of the first of
    the [questions] left; the button of the example that was clicked is the
    one that returns true. *)
Fixpoint example_buttons (host : Host) (questions : list string) (i : nat)
    (clicked : Interaction) (messages : list ChatMessage)
    : Ending * list ChatMessage :=
  match questions with
  | [] => (Completed, messages)
  | question :: rest =>
      if match clicked with ClickExample j => Nat.eqb j i | _ => false end
      then
        let messages1 := (messages ++ [user_says question])%list in
        match ask_agent (get_agent host) question with
        | Return response => (Rerun, (messages1 ++ [assistant_says response])%list)
        | Raise e =>
            if caught_by_Exception e
            then (Rerun, (messages1 ++ [assistant_says (Str (example_error e))])%list)
            else (Raised e, messages1)
        end
      else example_buttons host rest (S i) clicked messages
  end.

(** One run of the script, from top to bottom: how it ends, the session
    state it leaves and the chat messages it has put on the page. *)
Definition script (host : Host) (clicked : Interaction) (state : SessionState)
    : Ending * SessionState * list ChatMessage :=
  if negb (truthy_str (OPENAI_API_KEY host)) then (Stopped, state, [])
  else
    let messages := match state with
                    | Some messages => messages
                    | None => [welcome]
                    end in
    match example_buttons host example_questions 0 clicked messages with
    | (Completed, messages1) =>
        match clicked with
        | ClickClear => (Rerun, Some [welcome], [])
        | ChatInput (String c prompt) =>
            let typed := String c prompt in
            let messages2 := (messages1 ++ [user_says typed])%list in
            match ask_agent (get_agent host) typed with
            | Return response =>
                (Completed, Some (messages2 ++ [assistant_says response])%list,
                 (messages2 ++ [assistant_says response])%list)
            | Raise e =>
                if caught_by_Exception e
                then (Completed,
                      Some (messages2 ++ [assistant_says (Str (chat_error e))])%list,
                      messages2)
                else (Raised e, Some messages2, messages2)
            end
        | _ => (Completed, Some messages1, messages1)
        end
    | (ending, messages1) => (ending, Some messages1, [])
    end.

(** What one interaction leads to: the run it triggers and, when that run
    ends at [st.rerun()], the run that follows. *)
Definition interact (host : Host) (clicked : Interaction) (state : SessionState)
    : Ending * SessionState * list ChatMessage :=
  match script host clicked state with
  | (Rerun, state1, _) => script host Idle state1
  | result => result
  end.

(** The session states a sequence of interactions leads to, from a new
    browser session. *)
Inductive reachable : SessionState -> Prop :=
| reachable_new : reachable None
| reachable_interact (host : Host) (clicked : Interaction) (state : SessionState) :
    reachable state ->
    reachable (snd (fst (interact host clicked state))).

(** The welcome message heads the transcript, when there is one. *)
Definition welcomed (state : SessionState) : Prop :=
  state = None \/ exists rest, state = Some (welcome :: rest).

(** A configured page whose agent always gives the same answer. *)
Definition answering : Host :=
  mkHost (Some "sk-test") (Return (Turn.always_answers "3 tables: a, b, c")).

End app.

(** ** The client, with a standard output that can fail *)

(** The methods of [mcp_client] above take every [print] to return.  Here
    they are once more, over a standard output that is part of the world:
    what [print(line)] does at a point of the history is to return, the line
    written, or to raise (a closed pipe, a console that cannot encode the
    line).  With a standard output that takes every line the two agree. *)
Definition Stdout : Type := string -> Trace -> Outcome unit.

Module Printing.
Import mcp_client.

(** [print(line)] *)
Definition print (out : Stdout) (line : string) : Method unit :=
  fun f =>
    match out line (trace f) with
    | Return _ => (Return tt, mkFrame (self f) (trace f ++ [Print line])%list)
    | Raise e => (Raise e, f)
    end.

(** [DBTMCPClient._list_available_tools] *)
Definition _list_available_tools (out : Stdout) (env : Env) : Method unit :=
  c <- get_self ;;
  match session c with
  | None => ret tt
  | Some s =>
      try_except_Exception
        (emit (ListTools s) ;;
         tools <- ask (env_list_tools env s) ;;
         print out (nl ++ "Available Tools (" ++ str_of_nat (length tools) ++ "):") ;;
         print out (times "-" 60) ;;
         for_each tools (fun tool =>
           print out ("  " ++ bullet ++ " " ++ name tool) ;;
           if truthy_str (description tool)
           then print out ("    " ++ match description tool with
                                     | Some d => d
                                     | None => ""
                                     end)
           else ret tt) ;;
         print out (times "-" 60))
        (fun e => print out ("Failed to list tools: " ++ exn_str e))
  end.

(** The [try] block of [connect]. *)
Definition connect_try (out : Stdout) (env : Env) : Method unit :=
  set_exit_stack (Some []) ;;
  stdio_transport <-
    enter_async_context (Spawn server_command server_args)
      (env_stdio_client env) StdioStreams ;;
  let new_session := mkSession stdio_transport in
  s <- enter_async_context (EnterSession new_session)
         (fun tr => match env_session_enter env new_session tr with
                    | Return _ => Return new_session
                    | Raise e => Raise e
                    end)
         SessionContext ;;
  set_session (Some s) ;;
  emit (Initialize s) ;;
  ask (env_initialize env s) ;;
  set_connected true ;;
  print out "Successfully connected to DBT MCP Server" ;;
  _list_available_tools out env.

(** The [except Exception as e] block of [connect]. *)
Definition connect_except (out : Stdout) (env : Env) (e : Exn) : Method unit :=
  print out ("Failed to connect to MCP Server: " ++ exn_str e) ;;
  c <- get_self ;;
  (if truthy (exit_stack c)
   then aclose env ;; set_exit_stack None
   else ret tt) ;;
  raise e.

(** [DBTMCPClient.connect] *)
Definition connect (out : Stdout) (env : Env) : Method unit :=
  c <- get_self ;;
  if _connected c then print out "Already connected to MCP Server"
  else try_except_Exception (connect_try out env) (connect_except out env).

(** [DBTMCPClient.call_tool] *)
Definition call_tool (out : Stdout) (env : Env) (tool_name : string)
    (arguments : option Arguments) : Method CallToolResult :=
  c <- get_self ;;
  if negb (_connected c) || negb (truthy (session c)) then raise not_connected
  else
    try_except_Exception
      (match session c with
       | None => raise (none_has_no_attribute "call_tool")
       | Some s =>
           emit (CallTool s tool_name (or_empty arguments)) ;;
           ask (env_call_tool env s tool_name (or_empty arguments))
       end)
      (fun e =>
         print out ("Failed to call tool '" ++ tool_name ++ "': " ++ exn_str e) ;;
         raise e).

(** [DBTMCPClient.close] *)
Definition close (out : Stdout) (env : Env) : Method unit :=
  c <- get_self ;;
  if truthy (exit_stack c)
  then
    try_finally
      (try_except_Exception
         (aclose env ;; print out "MCP Server connection closed")
         (fun e => print out ("Error closing connection: " ++ exn_str e)))
      (set_exit_stack None ;;
       set_session None ;;
       set_connected false)
  else ret tt.

(** [get_mcp_client] *)
Definition get_mcp_client (out : Stdout) (env : Env) : Fn nat :=
  g <- get_global ;;
  (match g with
   | None => a <- new_DBTMCPClient ;; set_global (Some a)
   | Some _ => ret tt
   end) ;;
  g' <- get_global ;;
  match g' with
  | None => raise (none_has_no_attribute "is_connected")
  | Some a =>
      connected <- on a is_connected ;;
      (if negb connected then on a (connect out env) else ret tt) ;;
      ret a
  end.

(** [m] leaves the client as it is, adds only printed lines to the history,
    and raises only what standard output raised. *)
Definition only_prints (out : Stdout) {A} (m : Method A) : Prop :=
  forall f, exists r added,
    m f = (r, mkFrame (self f) (trace f ++ added)%list)
    /\ filter is_io added = []
    /\ forall e, r = Raise e -> exists line t, out line t = Raise e.

(** What comes out of the unwinding loop of [aclose], begun at the history
    [done]: the last exception an exit raised, if any did. *)
Fixpoint last_raised (env : Env) (done : Trace) (stack : list Resource)
    (pending : option Exn) : option Exn :=
  match stack with
  | [] => pending
  | r :: rest =>
      let asked := (done ++ [ExitContext r])%list in
      match env_exit env r asked with
      | Return _ => last_raised env asked rest pending
      | Raise e => last_raised env asked rest (Some e)
      end
  end.

(** A standard output that takes every line. *)
Definition writes : Stdout := fun _ _ => Return tt.

(** The code points of a string held as UTF-8 bytes; [cp] and [more] are
    the part of a code point read so far and the number of continuation
    bytes still to come. *)
Fixpoint code_points (s : string) (cp more : nat) : list nat :=
  match s with
  | EmptyString => []
  | String c rest =>
      let b := nat_of_ascii c in
      match more with
      | O =>
          if Nat.ltb b 128 then b :: code_points rest 0 0
          else if Nat.ltb b 224 then code_points rest (b - 192) 1
          else if Nat.ltb b 240 then code_points rest (b - 224) 2
          else code_points rest (b - 240) 3
      | S O => (cp * 64 + (b - 128)) :: code_points rest 0 0
      | S more' => code_points rest (cp * 64 + (b - 128)) more'
      end
  end.

Definition hex_digit (d : nat) : string :=
  String (ascii_of_nat (if Nat.ltb d 10 then 48 + d else 87 + d)) EmptyString.

(** [n] in hexadecimal, on [width] digits. *)
Fixpoint hex (width n : nat) : string :=
  match width with
  | O => EmptyString
  | S w => hex w (n / 16) ++ hex_digit (n mod 16)
  end.

(** A code point as the codec's message shows it. *)
Definition escaped (cp : nat) : string :=
  if Nat.ltb cp 256 then "\x" ++ hex 2 cp
  else if Nat.ltb cp (256 * 256) then "\u" ++ hex 4 cp
  else "\U" ++ hex 8 cp.

(** The number of code points at the head of [cps] that are not ASCII. *)
Fixpoint run_length (cps : list nat) : nat :=
  match cps with
  | cp :: rest => if Nat.ltb cp 128 then 0 else S (run_length rest)
  | [] => 0
  end.

(** What the ASCII codec says of the first run of code points it cannot
    encode, [i] being the position of the head of [cps]; None when it can
    encode them all. *)
Fixpoint ascii_codec_error (cps : list nat) (i : nat) : option string :=
  match cps with
  | [] => None
  | cp :: rest =>
      if Nat.ltb cp 128 then ascii_codec_error rest (S i)
      else
        Some (match run_length rest with
              | O => "'ascii' codec can't encode character '" ++ escaped cp
                     ++ "' in position " ++ str_of_nat i
              | S n => "'ascii' codec can't encode characters in position "
                       ++ str_of_nat i ++ "-" ++ str_of_nat (i + S n)
              end ++ ": ordinal not in range(128)")
  end.

(** A standard output whose encoding is ASCII (as under
    [PYTHONIOENCODING=ascii]): a line with any other character makes
    [print] raise UnicodeEncodeError, and nothing of it is written. *)
Definition ascii_console : Stdout :=
  fun line _ =>
    match ascii_codec_error (code_points line 0 0) 0 with
    | None => Return tt
    | Some message => Raise (mkExn (OtherException "UnicodeEncodeError") message)
    end.

(** The server shakes hands but refuses the list request, with a message
    in French that has two accented letters (e circumflex, e acute). *)
Definition refuses_in_french : Env :=
  mkEnv (env_stdio_client Scenarios.healthy) (env_session_enter Scenarios.healthy)
        (env_initialize Scenarios.healthy)
        (fun _ _ => Raise (mkExn (OtherException "McpError")
                                 ("requ" ++ bytes [195; 170] ++ "te refus"
                                  ++ bytes [195; 169] ++ "e")))
        (env_call_tool Scenarios.healthy) (env_exit Scenarios.healthy)
        (env_event_loop Scenarios.healthy).

(** A client whose flag is raised while its exit stack is gone. *)
Definition torn_down_client : DBTMCPClient :=
  mkClient (Some (mkSession 1)) None true.

(** Leaving the session is interrupted, then closing the streams fails. *)
Definition interrupt_then_failure : Env :=
  Scenarios.with_exit Scenarios.healthy
    (fun r _ => match r with
                | SessionContext _ => Raise (mkExn KeyboardInterrupt "")
                | StdioStreams _ => Raise (mkExn RuntimeError "cancel scope")
                end).

End Printing.


(** * Properties *)

Import mcp_client agent Lifecycle.

(** ** The monad *)

Lemma bind_return {S A B} (m : M S A) (k : A -> M S B) s a s' :
  m s = (Return a, s') -> bind m k s = k a s'.
Proof. intros H. unfold bind. rewrite H. reflexivity. Qed.

Lemma bind_raise {S A B} (m : M S A) (k : A -> M S B) s e s' :
  m s = (Raise e, s') -> bind m k s = (Raise e, s').
Proof. intros H. unfold bind. rewrite H. reflexivity. Qed.

Lemma append_assoc (a b c : string) : (a ++ b) ++ c = a ++ b ++ c.
Proof. induction a as [|x a IH]; simpl; [reflexivity | now rewrite IH]. Qed.

Lemma append_empty_r (a : string) : a ++ "" = a.
Proof. induction a as [|x a IH]; simpl; [reflexivity | now rewrite IH]. Qed.

(** ** Operations invoked on a client that is not connected *)

Section NotConnected.
Variable env : Env.

(** C1. When the connection flag is false, [call_tool] (whatever the tool
    name and the arguments) and [list_tools] raise the RuntimeError "Not
    connected to MCP Server. Call connect() first." and leave the client
    and the history as they were: nothing is printed and no request is
    sent. *)
Theorem not_connected_fails_without_io
    (c : DBTMCPClient) (tr : Trace) (tool_name : string)
    (arguments : option Arguments) :
  _connected c = false ->
  call_tool env tool_name arguments (mkFrame c tr) = (Raise not_connected, mkFrame c tr)
  /\ list_tools env (mkFrame c tr) = (Raise not_connected, mkFrame c tr)
  /\ exn_class not_connected = RuntimeError.
Proof.
  intros Hflag.
  unfold call_tool, list_tools, bind, get_self; cbn [self].
  rewrite Hflag. cbn [negb orb]. unfold raise.
  repeat split.
Qed.


End NotConnected.

Lemma not_connected_fails_without_io_witness :
  _connected __init__ = false
  /\ call_tool Scenarios.healthy "list_models" None (mkFrame __init__ [])
     = (Raise not_connected, mkFrame __init__ []).
Proof.
  split; [reflexivity |].
  apply (not_connected_fails_without_io Scenarios.healthy __init__ [] "list_models" None).
  reflexivity.
Defined.


(** ** What the methods do to the client object *)

Section ClientMethods.
Variable env : Env.

Lemma for_each_prints {A} (line : A -> Method unit) (l : list A) :
  (forall x f, exists added,
      line x f = (Return tt, mkFrame (self f) (trace f ++ added)%list)
      /\ filter is_io added = []) ->
  forall f, exists added,
    for_each l line f = (Return tt, mkFrame (self f) (trace f ++ added)%list)
    /\ filter is_io added = [].
Proof.
  intros Hline. induction l as [|x rest IH]; intros f.
  - exists []. cbn. rewrite app_nil_r. destruct f. split; reflexivity.
  - destruct (Hline x f) as [a1 [H1 Hio1]].
    destruct (IH (mkFrame (self f) (trace f ++ a1)%list)) as [a2 [H2 Hio2]].
    exists (a1 ++ a2)%list. split.
    + cbn [for_each]. rewrite (bind_return _ _ _ _ _ H1). rewrite H2.
      cbn [self trace]. now rewrite app_assoc.
    + rewrite filter_app, Hio1, Hio2. reflexivity.
Qed.

(** [_list_available_tools] never touches the object, and lets out only
    what [except Exception] does not catch. *)
Lemma _list_available_tools_spec (f : Frame) :
  exists r added,
    _list_available_tools env f = (r, mkFrame (self f) (trace f ++ added)%list)
    /\ (r = Return tt \/ exists e, r = Raise e /\ caught_by_Exception e = false).
Proof.
  unfold _list_available_tools, bind at 1, get_self.
  destruct (session (self f)) as [s|].
  2:{ exists (Return tt), []. rewrite app_nil_r. destruct f. split; [reflexivity | now left]. }
  unfold try_except_Exception.
  unfold bind at 1, emit; cbn [self trace].
  unfold bind at 1, ask; cbn [self trace].
  destruct (env_list_tools env s (trace f ++ [ListTools s])%list) as [tools|e].
  - unfold bind at 1, print, emit; cbn [self trace].
    unfold bind at 1; cbn [self trace].
    unfold bind at 1.
    match goal with
    | |- context [for_each tools ?body ?fr] =>
        destruct (for_each_prints body tools) with (f := fr) as [added [Hrun _]]
    end.
    { intros x g. unfold bind, print, emit, ret.
      destruct (truthy_str (description x)); cbn [self trace]; eexists;
        (split; [rewrite <- ?app_assoc; reflexivity | reflexivity]). }
    rewrite Hrun. cbn [self trace].
    eexists (Return tt), _. split; [| now left].
    f_equal. f_equal. rewrite <- !app_assoc. reflexivity.
  - destruct (caught_by_Exception e) eqn:Hc.
    + unfold print, emit; cbn [self trace].
      eexists (Return tt), _. split; [| now left].
      rewrite <- app_assoc. reflexivity.
    + eexists (Raise e), _. split; [reflexivity |]. right. now exists e.
Qed.

(** The unwinding loop exits every context on the stack, in order, leaves
    the stack empty and changes nothing else of the object. *)
Lemma unwind_spec (stack : list Resource) :
  forall (pending : option Exn) (f : Frame),
    exit_stack (self f) = Some stack ->
    exists r,
      unwind env stack pending f
      = (r, mkFrame (mkClient (session (self f)) (Some []) (_connected (self f)))
                    (trace f ++ map ExitContext stack)%list).
Proof.
  induction stack as [|res rest IH]; intros pending f Hstack.
  - cbn [unwind map]. rewrite app_nil_r.
    destruct f as [[s st k] tr]; cbn in Hstack |- *; subst st.
    destruct pending; eexists; reflexivity.
  - cbn [unwind map].
    unfold bind at 1, set_exit_stack; cbn [self trace session _connected].
    unfold bind at 1, emit; cbn [self trace session exit_stack _connected].
    match goal with
    | |- context [env_exit env res ?t] => destruct (env_exit env res t)
    end;
    match goal with
    | |- context [unwind env rest ?pd ?fr] =>
        destruct (IH pd fr eq_refl) as [r Hr]; rewrite Hr
    end;
    cbn [self trace session exit_stack _connected];
    exists r; rewrite <- app_assoc; reflexivity.
Qed.

Lemma aclose_spec (f : Frame) (stack : list Resource) :
  exit_stack (self f) = Some stack ->
  exists r,
    aclose env f
    = (r, mkFrame (mkClient (session (self f)) (Some []) (_connected (self f)))
                  (trace f ++ map ExitContext stack)%list).
Proof.
  intros Hstack. unfold aclose, bind, get_self. rewrite Hstack.
  apply unwind_spec. assumption.
Qed.

Lemma call_tool_keeps_self (tool_name : string) (arguments : option Arguments) (f : Frame) :
  self (snd (call_tool env tool_name arguments f)) = self f.
Proof.
  unfold call_tool, bind at 1, get_self.
  destruct (negb (_connected (self f)) || negb (truthy (session (self f)))).
  - reflexivity.
  - unfold try_except_Exception.
    destruct (session (self f)) as [s|].
    + unfold bind, emit, ask; cbn [self trace].
      match goal with
      | |- context [env_call_tool env s tool_name ?a ?t] =>
          destruct (env_call_tool env s tool_name a t) as [r|e]
      end; [reflexivity |].
      destruct (caught_by_Exception e); reflexivity.
    + unfold raise. cbn. unfold bind, print, emit, raise. reflexivity.
Qed.

Lemma list_tools_keeps_self (f : Frame) :
  self (snd (list_tools env f)) = self f.
Proof.
  unfold list_tools, bind at 1, get_self.
  destruct (negb (_connected (self f)) || negb (truthy (session (self f)))).
  - reflexivity.
  - destruct (session (self f)) as [s|]; [| reflexivity].
    unfold bind, emit, ask; cbn [self trace].
    destruct (env_list_tools env s (trace f ++ [ListTools s])%list); reflexivity.
Qed.

Lemma _list_available_tools_keeps_self (f : Frame) :
  self (snd (_list_available_tools env f)) = self f.
Proof.
  destruct (_list_available_tools_spec f) as [r [added [H _]]].
  rewrite H. reflexivity.
Qed.

End ClientMethods.

(** ** Connecting *)

Section Connecting.
Variable env : Env.

Ltac step_in H :=
  cbv [bind set_exit_stack enter_async_context get_self emit ask ret raise
       set_session set_connected print option_map
       self trace session exit_stack _connected] in H.

(** The four ways the [try] block of [connect] can go, by what the world
    answers to the spawn, to the opening of the session and to the
    handshake. *)
Lemma connect_try_spec (f : Frame) :
  let c := self f in
  let tr1 := (trace f ++ [Spawn server_command server_args])%list in
  match env_stdio_client env tr1 with
  | Raise e =>
      connect_try env f
      = (Raise e, mkFrame (mkClient (session c) (Some []) (_connected c)) tr1)
  | Return t =>
      let s := mkSession t in
      let tr2 := (tr1 ++ [EnterSession s])%list in
      match env_session_enter env s tr2 with
      | Raise e =>
          connect_try env f
          = (Raise e,
             mkFrame (mkClient (session c) (Some [StdioStreams t]) (_connected c)) tr2)
      | Return _ =>
          let tr3 := (tr2 ++ [Initialize s])%list in
          let entered := [SessionContext s; StdioStreams t] in
          match env_initialize env s tr3 with
          | Raise e =>
              connect_try env f
              = (Raise e,
                 mkFrame (mkClient (Some s) (Some entered) (_connected c)) tr3)
          | Return _ =>
              exists r added,
                connect_try env f
                = (r, mkFrame (mkClient (Some s) (Some entered) true)
                              (tr3 ++ added)%list)
                /\ (r = Return tt
                    \/ exists e, r = Raise e /\ caught_by_Exception e = false)
          end
      end
  end.
Proof.
  destruct f as [[s0 st0 k0] tr0].
  cbn [self trace session exit_stack _connected].
  remember (connect_try env (mkFrame (mkClient s0 st0 k0) tr0)) as run eqn:Hrun.
  unfold connect_try in Hrun.
  step_in Hrun.
  destruct (env_stdio_client env (tr0 ++ [Spawn server_command server_args])%list)
    as [t|e]; [| exact Hrun].
  step_in Hrun.
  destruct (env_session_enter env (mkSession t)
              ((tr0 ++ [Spawn server_command server_args]) ++ [EnterSession (mkSession t)])%list)
    as [[]|e]; [| exact Hrun].
  step_in Hrun.
  match type of Hrun with
  | context [env_initialize env ?s ?t] => destruct (env_initialize env s t) as [[]|e]
  end; [| exact Hrun].
  step_in Hrun.
  match type of Hrun with
  | context [_list_available_tools env ?fr] =>
      destruct (_list_available_tools_spec env fr) as [r [added [Hlist Hr]]]
  end.
  rewrite Hlist in Hrun. cbn [self trace] in Hrun.
  exists r. eexists. split; [| exact Hr].
  rewrite Hrun. rewrite <- app_assoc. reflexivity.
Qed.

(** The [except] block of [connect] on a frame whose exit stack is set:
    it prints, unwinds the stack, and re-raises [e] with the stack handle
    cleared, unless the unwinding itself raises. *)
Lemma connect_except_spec (e : Exn) (f : Frame) (stack : list Resource) :
  exit_stack (self f) = Some stack ->
  let c := self f in
  let tr' := (trace f ++ Print ("Failed to connect to MCP Server: " ++ exn_str e)
                        :: map ExitContext stack)%list in
  exists r,
    aclose env (mkFrame c (trace f ++ [Print ("Failed to connect to MCP Server: "
                                              ++ exn_str e)])%list)
    = (r, mkFrame (mkClient (session c) (Some []) (_connected c)) tr')
    /\ connect_except env e f
       = match r with
         | Return _ => (Raise e, mkFrame (mkClient (session c) None (_connected c)) tr')
         | Raise e' => (Raise e', mkFrame (mkClient (session c) (Some []) (_connected c)) tr')
         end.
Proof.
  destruct f as [[s0 st0 k0] tr0].
  cbn [self trace session exit_stack _connected].
  intros Hstack. subst st0.
  destruct (aclose_spec env
              (mkFrame (mkClient s0 (Some stack) k0)
                       (tr0 ++ [Print ("Failed to connect to MCP Server: "
                                       ++ exn_str e)])%list)
              stack eq_refl) as [r Hr].
  cbn [self trace session exit_stack _connected] in Hr.
  rewrite <- app_assoc in Hr. cbn [app] in Hr.
  exists r. split; [exact Hr |].
  unfold connect_except.
  cbv [bind get_self emit ret raise print self trace session exit_stack
       _connected truthy].
  rewrite Hr.
  destruct r as [[]|e']; reflexivity.
Qed.


(** When the [try] block raises something [except Exception] catches, the
    flag has not been set yet and the exit stack exists; the session handle
    has been assigned exactly when the handshake was reached. *)
Lemma connect_try_caught (f fr : Frame) (e : Exn) :
  connect_try env f = (Raise e, fr) ->
  caught_by_Exception e = true ->
  _connected (self fr) = _connected (self f)
  /\ exists stack,
       exit_stack (self fr) = Some stack
       /\ (session (self fr) = session (self f)
           \/ exists s, session (self fr) = Some s
                        /\ stack = [SessionContext s; StdioStreams (session_transport s)]).
Proof.
  intros Hrun Hcaught.
  pose proof (connect_try_spec f) as Hspec. cbv zeta in Hspec.
  destruct (env_stdio_client env _) as [t|e1].
  2:{ rewrite Hspec in Hrun. inversion Hrun; subst. cbn.
      split; [reflexivity |]. exists []. split; [reflexivity | now left]. }
  destruct (env_session_enter env _ _) as [[]|e2].
  2:{ rewrite Hspec in Hrun. inversion Hrun; subst. cbn.
      split; [reflexivity |]. eexists. split; [reflexivity | now left]. }
  destruct (env_initialize env _ _) as [[]|e3].
  2:{ rewrite Hspec in Hrun. inversion Hrun; subst. cbn.
      split; [reflexivity |]. eexists. split; [reflexivity |].
      right. eexists. split; reflexivity. }
  destruct Hspec as [r [added [Hspec [Hr | [e' [Hr Hun]]]]]];
    rewrite Hspec in Hrun; inversion Hrun; subst; [discriminate |].
  match goal with H : Raise _ = Raise _ |- _ => inversion H; subst end.
  congruence.
Qed.

(** When the [try] block returns, the flag is set and both handles are. *)
Lemma connect_try_returns (f fr : Frame) :
  connect_try env f = (Return tt, fr) ->
  _connected (self fr) = true
  /\ session (self fr) <> None /\ exit_stack (self fr) <> None.
Proof.
  intros Hrun.
  pose proof (connect_try_spec f) as Hspec. cbv zeta in Hspec.
  destruct (env_stdio_client env _) as [t|e1]; [| congruence].
  destruct (env_session_enter env _ _) as [[]|e2]; [| congruence].
  destruct (env_initialize env _ _) as [[]|e3]; [| congruence].
  destruct Hspec as [r [added [Hspec _]]].
  rewrite Hspec in Hrun. inversion Hrun; subst. cbn.
  repeat split; discriminate.
Qed.

(** However the [try] block ends, a set flag comes with both handles. *)
(** [connect] on a client that is not connected, when the [try] block
    raises an [Exception]: every context entered so far is exited, and the
    failure is raised again with the stack handle cleared and the flag
    still false; the session handle is left as the [try] block set it. *)
Lemma connect_failure (f fr : Frame) (e : Exn) :
  _connected (self f) = false ->
  connect_try env f = (Raise e, fr) ->
  caught_by_Exception e = true ->
  exists (stack : AsyncExitStack) (r : Outcome unit),
    exit_stack (self fr) = Some stack
    /\ connect env f
       = match r with
         | Return _ =>
             (Raise e,
              mkFrame (mkClient (session (self fr)) None false)
                      (trace fr ++ Print ("Failed to connect to MCP Server: " ++ exn_str e)
                                :: map ExitContext stack)%list)
         | Raise e' =>
             (Raise e',
              mkFrame (mkClient (session (self fr)) (Some []) false)
                      (trace fr ++ Print ("Failed to connect to MCP Server: " ++ exn_str e)
                                :: map ExitContext stack)%list)
         end.
Proof.
  intros Hk Hrun Hcaught.
  destruct (connect_try_caught f fr e Hrun Hcaught) as [Hflag [stack [Hstack _]]].
  destruct (connect_except_spec e fr stack Hstack) as [r [_ Hexc]].
  exists stack, r. split; [exact Hstack |].
  unfold connect, bind at 1, get_self. rewrite Hk.
  unfold try_except_Exception. rewrite Hrun, Hcaught, Hexc.
  rewrite Hflag, Hk. reflexivity.
Qed.

(** Whatever [connect] does, a set flag comes with both handles. *)
(** [connect] returns only with the flag set. *)
Lemma connect_returns_connected (f f' : Frame) :
  connect env f = (Return tt, f') -> _connected (self f') = true.
Proof.
  unfold connect, bind at 1, get_self.
  destruct (_connected (self f)) eqn:Hk.
  - unfold print, emit. intros H. inversion H; subst. exact Hk.
  - unfold try_except_Exception.
    destruct (connect_try env f) as [[[]|e] fr] eqn:Hrun.
    + intros H. inversion H; subst. now apply (connect_try_returns f).
    + destruct (caught_by_Exception e) eqn:Hcaught; [| discriminate].
      destruct (connect_try_caught f fr e Hrun Hcaught) as [_ [stack [Hstack _]]].
      destruct (connect_except_spec e fr stack Hstack) as [r [_ Hexc]].
      rewrite Hexc. destruct r; discriminate.
Qed.

End Connecting.

(** ** Closing *)

Section Closing.
Variable env : Env.

(** What the unwinding loop raises was pending or comes from an exit. *)
Lemma unwind_raises_from (stack : list Resource) :
  forall (pending : option Exn) (f fr : Frame) (e : Exn),
    unwind env stack pending f = (Raise e, fr) ->
    pending = Some e
    \/ exists res t, In res stack /\ env_exit env res t = Raise e.
Proof.
  induction stack as [|res rest IH]; intros pending f fr e Hrun.
  - cbn [unwind] in Hrun. destruct pending as [e'|].
    + unfold raise in Hrun. inversion Hrun; subst. now left.
    + discriminate.
  - cbn [unwind] in Hrun.
    unfold bind at 1, set_exit_stack in Hrun.
    unfold bind at 1, emit in Hrun. cbn [self trace] in Hrun.
    match type of Hrun with
    | context [env_exit env res ?t] =>
        destruct (env_exit env res t) as [[]|e'] eqn:Hexit
    end.
    + destruct (IH _ _ _ _ Hrun) as [Hp | [res' [t' [Hin Hex]]]].
      * now left.
      * right. exists res', t'. split; [now right | exact Hex].
    + destruct (IH _ _ _ _ Hrun) as [Hp | [res' [t' [Hin Hex]]]].
      * inversion Hp; subst. right. eexists res, _. split; [now left | exact Hexit].
      * right. exists res', t'. split; [now right | exact Hex].
Qed.

(** [close] in full: nothing happens without an exit stack; with one,
    every context on it is exited, the three attributes are reset whatever
    the unwinding did, and only what [except Exception] does not catch can
    come out. *)
Lemma close_spec (c : DBTMCPClient) (tr : Trace) :
  match exit_stack c with
  | None => close env (mkFrame c tr) = (Return tt, mkFrame c tr)
  | Some stack =>
      exists r log,
        close env (mkFrame c tr)
        = (r, mkFrame __init__ (tr ++ map ExitContext stack ++ log)%list)
        /\ filter is_io log = []
        /\ (r = Return tt
            \/ exists e res t,
                 r = Raise e /\ caught_by_Exception e = false
                 /\ In res stack /\ env_exit env res t = Raise e)
  end.
Proof.
  destruct c as [s st k]. cbn [exit_stack].
  destruct st as [stack|]; [| reflexivity].
  unfold close, bind at 1, get_self. cbn [self exit_stack truthy].
  unfold try_finally, try_except_Exception.
  unfold bind at 1.
  destruct (aclose_spec env (mkFrame (mkClient s (Some stack) k) tr) stack eq_refl)
    as [r Hr].
  pose proof Hr as Hr'. unfold aclose, bind, get_self in Hr'.
  cbn [self trace exit_stack] in Hr'.
  rewrite Hr. cbn [self trace session exit_stack _connected].
  destruct r as [[]|e].
  - cbv [bind print emit set_exit_stack set_session set_connected
         self trace session exit_stack _connected].
    exists (Return tt), [Print "MCP Server connection closed"].
    split; [| split; [reflexivity | now left]].
    rewrite <- app_assoc. reflexivity.
  - destruct (unwind_raises_from _ _ _ _ _ Hr') as [Hp | [res [t [Hin Hex]]]];
      [discriminate |].
    destruct (caught_by_Exception e) eqn:Hcaught.
    + cbv [bind print emit set_exit_stack set_session set_connected
           self trace session exit_stack _connected].
      exists (Return tt), [Print ("Error closing connection: " ++ exn_str e)].
      split; [| split; [reflexivity | now left]].
      rewrite <- app_assoc. reflexivity.
    + cbv [bind print emit set_exit_stack set_session set_connected
           self trace session exit_stack _connected].
      exists (Raise e), [].
      split; [| split; [reflexivity |]].
      * rewrite app_nil_r. reflexivity.
      * right. exists e, res, t. repeat split; assumption.
Qed.

End Closing.

(** An [Exception] raised while the streams are closed is only printed. *)
Example close_swallows_a_teardown_failure :
  close Scenarios.teardown_fails (mkFrame Scenarios.connected_client [])
  = (Return tt,
     mkFrame __init__
             [ExitContext (SessionContext (mkSession 1));
              ExitContext (StdioStreams 1);
              Print "Error closing connection: cancel scope"]).
Proof. reflexivity. Qed.

(** C8, the claim as stated, fails: a user interrupt that arrives while the
    streams of a connected client are being closed comes out of [close]. *)
Lemma close_lets_an_interrupt_out :
  truthy (exit_stack Scenarios.connected_client) = true
  /\ close Scenarios.teardown_interrupted (mkFrame Scenarios.connected_client [])
     = (Raise (mkExn KeyboardInterrupt ""),
        mkFrame __init__
                [ExitContext (SessionContext (mkSession 1));
                 ExitContext (StdioStreams 1)]).
Proof. split; reflexivity. Qed.

(** ** A failed connection attempt *)

(** A handshake that fails with an [Exception], in any world and on any
    client that is not connected: [connect] leaves the session handle set. *)
Lemma connect_handshake_failure_leaves_session
    (env : Env) (f : Frame) (t : Transport) (e : Exn) :
  let tr1 := (trace f ++ [Spawn server_command server_args])%list in
  let s := mkSession t in
  let tr2 := (tr1 ++ [EnterSession s])%list in
  let tr3 := (tr2 ++ [Initialize s])%list in
  _connected (self f) = false ->
  env_stdio_client env tr1 = Return t ->
  env_session_enter env s tr2 = Return tt ->
  env_initialize env s tr3 = Raise e ->
  caught_by_Exception e = true ->
  session (self (snd (connect env f))) = Some s
  /\ _connected (self (snd (connect env f))) = false.
Proof.
  cbv zeta. intros Hk Hspawn Henter Hinit Hcaught.
  pose proof (connect_try_spec env f) as Hspec. cbv zeta in Hspec.
  rewrite Hspawn, Henter, Hinit in Hspec.
  destruct (connect_failure env f _ e Hk Hspec Hcaught) as [stack [r [_ Hrun]]].
  rewrite Hrun. destruct r; cbn; split; reflexivity.
Qed.

(** When the subprocess cannot be started, nothing was acquired and the
    client is left as it was constructed. *)
Example connect_spawn_failure :
  connect Scenarios.spawn_fails (mkFrame __init__ [])
  = (Raise (mkExn (OtherException "FileNotFoundError") "uvx"),
     mkFrame __init__
             [Spawn "uvx" ["--env-file"; "./.env"; "dbt-mcp"];
              Print "Failed to connect to MCP Server: uvx"]).
Proof. reflexivity. Qed.

(** C6, at the failing input: a new client whose subprocess starts and whose
    handshake fails.  [connect] raises the failure again, exits both
    contexts, clears the exit-stack handle and leaves the flag false, but the
    session handle stays set to the session that was just torn down. *)
Theorem connect_failure_keeps_session_handle :
  connect Scenarios.handshake_fails (mkFrame __init__ [])
  = (Raise (mkExn (OtherException "McpError") "handshake failed"),
     mkFrame (mkClient (Some (mkSession 1)) None false)
             [Spawn "uvx" ["--env-file"; "./.env"; "dbt-mcp"];
              EnterSession (mkSession 1);
              Initialize (mkSession 1);
              Print "Failed to connect to MCP Server: handshake failed";
              ExitContext (SessionContext (mkSession 1));
              ExitContext (StdioStreams 1)])
  /\ session (self (snd (connect Scenarios.handshake_fails (mkFrame __init__ []))))
     <> session __init__.
Proof. split; [reflexivity | discriminate]. Qed.

(** ** The global client *)

Section GlobalClient.
Variable env : Env.

Lemma store_same (l : list DBTMCPClient) :
  forall a c, nth_error l a = Some c -> store a c l = l.
Proof.
  induction l as [|x rest IH]; intros [|a] c H; cbn in *; try congruence.
  f_equal. now apply IH.
Qed.

Lemma nth_error_store (l : list DBTMCPClient) :
  forall a c, a < length l -> nth_error (store a c l) a = Some c.
Proof.
  induction l as [|x rest IH]; intros [|a] c H; cbn in *; try lia.
  - reflexivity.
  - apply IH. lia.
Qed.

Lemma store_new (l : list DBTMCPClient) (x c : DBTMCPClient) :
  store (length l) c (l ++ [x]) = (l ++ [c])%list.
Proof. induction l as [|y rest IH]; cbn; [reflexivity | now rewrite IH]. Qed.

Lemma nth_error_new (l : list DBTMCPClient) (x : DBTMCPClient) :
  nth_error (l ++ [x]) (length l) = Some x.
Proof. induction l as [|y rest IH]; cbn; [reflexivity | exact IH]. Qed.

(** [get_mcp_client] when the global is unset: a new object is made, put
    in the global and connected. *)
Lemma get_mcp_client_creates (p : Process) (r : Outcome unit) (f : Frame) :
  _client_instance p = None ->
  connect env (mkFrame __init__ (history p)) = (r, f) ->
  get_mcp_client env p
  = (match r with
     | Return _ => Return (length (objects p))
     | Raise e => Raise e
     end,
     mkProcess (objects p ++ [self f]) (Some (length (objects p))) (trace f)).
Proof.
  intros Hnone Hrun. destruct p as [objs g tr].
  cbn [objects _client_instance history] in Hnone, Hrun. subst g.
  unfold get_mcp_client.
  cbv [bind get_global new_DBTMCPClient set_global ret
       objects _client_instance history].
  unfold on at 1. cbn [objects _client_instance history].
  rewrite nth_error_new. cbv [is_connected bind get_self ret self trace].
  cbn [_connected __init__ negb].
  rewrite store_same by apply nth_error_new.
  unfold on. cbn [objects _client_instance history].
  rewrite nth_error_new, Hrun. rewrite store_new.
  destruct r as [[]|e]; reflexivity.
Qed.

(** [get_mcp_client] when the global holds an object. *)
Lemma get_mcp_client_reuses (p : Process) (a : nat) (c : DBTMCPClient)
    (r : Outcome unit) (f : Frame) :
  _client_instance p = Some a ->
  nth_error (objects p) a = Some c ->
  connect env (mkFrame c (history p)) = (r, f) ->
  get_mcp_client env p
  = if _connected c then (Return a, p)
    else (match r with
          | Return _ => Return a
          | Raise e => Raise e
          end,
          mkProcess (store a (self f) (objects p)) (Some a) (trace f)).
Proof.
  intros Hsome Hobj Hrun. destruct p as [objs g tr].
  cbn [objects _client_instance history] in Hsome, Hobj, Hrun. subst g.
  unfold get_mcp_client.
  cbv [bind get_global ret objects _client_instance history].
  unfold on at 1. cbn [objects _client_instance history].
  rewrite Hobj. cbv [is_connected bind get_self ret self trace].
  rewrite (store_same _ _ _ Hobj).
  destruct (_connected c); cbn [negb].
  - reflexivity.
  - unfold on. cbn [objects _client_instance history].
    rewrite Hobj, Hrun. destruct r as [[]|e]; reflexivity.
Qed.

End GlobalClient.

(** ** The adapter *)

Section Adapter.
Variable env : Env.
Import RoundTrip.

Lemma _call_spec (tool_name : string) (kwargs : Arguments) (p : Process) :
  match get_mcp_client env p with
  | (Raise e, p') => _call env tool_name kwargs p = (Raise e, p')
  | (Return client, p1) =>
      match on client (call_tool env tool_name (Some kwargs)) p1 with
      | (Raise e, p') => _call env tool_name kwargs p = (Raise e, p')
      | (Return result, p') =>
          _call env tool_name kwargs p
          = (match content result with
             | first :: _ =>
                 match part_text first with
                 | Some text => Return text
                 | None => Raise (has_no_attribute (part_class first) "text")
                 end
             | [] => Return (result_str result)
             end, p')
      end
  end.
Proof.
  unfold _call, bind.
  destruct (get_mcp_client env p) as [[client|e] p1]; [| reflexivity].
  destruct (on client (call_tool env tool_name (Some kwargs)) p1)
    as [[result|e] p']; [| reflexivity].
  destruct (content result) as [|first rest]; [reflexivity |].
  destruct (part_text first); reflexivity.
Qed.

(** The body of the wrapper raises exactly at one of the four places. *)
Lemma raises_body (tool_name : string) (kwargs : Arguments)
    (p : Process) (e : Exn) (p' : Process) :
  raises env tool_name kwargs p e p' ->
  bind (ask_world (env_event_loop env)) (fun _ => _call env tool_name kwargs) p
  = (Raise e, p').
Proof.
  intros Hraises. pose proof (_call_spec tool_name kwargs p) as Hcall.
  unfold bind, ask_world.
  destruct Hraises as [Hloop Hp | Hloop Hget | client p1 Hloop Hget Hrun
                       | client p1 result first rest Hloop Hget Hrun Hcontent Htext He];
    rewrite Hloop.
  - now subst.
  - rewrite Hget in Hcall. exact Hcall.
  - rewrite Hget, Hrun in Hcall. exact Hcall.
  - rewrite Hget, Hrun, Hcontent, Htext in Hcall. subst e. exact Hcall.
Qed.

End Adapter.

(** C4 (as amended). Whatever raises during the round trip of a wrapper
    (obtaining the event loop, acquiring the connection, the remote call, or
    reading the text of the result): when it is an [Exception], the wrapper
    does not raise but returns the text "Error calling MCP tool '<name>':
    <str(e)>", which contains the tool's name and the failure reason; when it
    is outside [Exception] ([KeyboardInterrupt], [SystemExit],
    [CancelledError]), it goes through the wrapper to the caller. *)
Theorem wrapper_turns_Exceptions_into_text
    (env : Env) (tool_name : string) (kwargs : Arguments)
    (p : Process) (e : Exn) (p' : Process) :
  RoundTrip.raises env tool_name kwargs p e p' ->
  (caught_by_Exception e = true ->
   sync_call_mcp_tool env tool_name kwargs p
   = (Return (RoundTrip.error_text tool_name e), p')
   /\ contains (RoundTrip.error_text tool_name e) tool_name
   /\ contains (RoundTrip.error_text tool_name e) (exn_str e))
  /\ (caught_by_Exception e = false ->
      sync_call_mcp_tool env tool_name kwargs p = (Raise e, p')).
Proof.
  intros Hraises.
  pose proof (raises_body env tool_name kwargs p e p' Hraises) as Hbody.
  unfold sync_call_mcp_tool, try_except_Exception. rewrite Hbody.
  split; intros Hcaught; rewrite Hcaught.
  - split; [reflexivity |]. unfold RoundTrip.error_text. split.
    + exists "Error calling MCP tool '", ("': " ++ exn_str e). reflexivity.
    + exists ("Error calling MCP tool '" ++ tool_name ++ "': "), "".
      rewrite append_empty_r. rewrite !append_assoc. reflexivity.
  - reflexivity.
Qed.

Lemma wrapper_turns_Exceptions_into_text_witness :
  (exists p', RoundTrip.raises Scenarios.call_fails "get_lineage" []
                Scenarios.fresh_process
                (mkExn (OtherException "McpError") "unknown model") p')
  /\ fst (sync_call_mcp_tool Scenarios.call_fails "get_lineage" []
            Scenarios.fresh_process)
     = Return "Error calling MCP tool 'get_lineage': unknown model".
Proof.
  assert (Hraises :
            RoundTrip.raises Scenarios.call_fails "get_lineage" []
              Scenarios.fresh_process
              (mkExn (OtherException "McpError") "unknown model")
              (snd (sync_call_mcp_tool Scenarios.call_fails "get_lineage" []
                      Scenarios.fresh_process))).
  { apply RoundTrip.at_remote_call
      with (client := 0)
           (p1 := snd (get_mcp_client Scenarios.call_fails Scenarios.fresh_process));
      vm_compute; reflexivity. }
  split; [eexists; exact Hraises |].
  destruct (wrapper_turns_Exceptions_into_text _ _ _ _ _ _ Hraises) as [Hcaught _].
  destruct (Hcaught eq_refl) as [Hrun _].
  rewrite Hrun. reflexivity.
Defined.

(** C4, the claim as stated, fails: a user interrupt that arrives during the
    remote call is raised by the wrapper to its caller. *)
Lemma wrapper_lets_an_interrupt_out :
  (exists p', RoundTrip.raises Scenarios.call_interrupted "get_lineage" []
                Scenarios.fresh_process (mkExn KeyboardInterrupt "") p')
  /\ fst (sync_call_mcp_tool Scenarios.call_interrupted "get_lineage" []
            Scenarios.fresh_process)
     = Raise (mkExn KeyboardInterrupt "").
Proof.
  split; [| vm_compute; reflexivity].
  eexists.
  apply RoundTrip.at_remote_call
    with (client := 0)
         (p1 := snd (get_mcp_client Scenarios.call_interrupted Scenarios.fresh_process));
    vm_compute; reflexivity.
Qed.

(** C2 (as amended). After a round trip that returned a result, the wrapper
    returns the text of the first content part when the result has parts
    and the first one carries text, and [str(result)] when the result has
    no parts.  When the first part carries no text, reading it raises
    AttributeError and the wrapper returns its error text.  In every case
    what it returns is a string. *)
Theorem wrapper_returns_text_of_first_part
    (env : Env) (tool_name : string) (kwargs : Arguments)
    (p : Process) (client : nat) (p1 : Process) (result : CallToolResult)
    (p2 : Process) :
  env_event_loop env (history p) = Return tt ->
  get_mcp_client env p = (Return client, p1) ->
  on client (call_tool env tool_name (Some kwargs)) p1 = (Return result, p2) ->
  (forall first rest text,
      content result = first :: rest -> part_text first = Some text ->
      sync_call_mcp_tool env tool_name kwargs p = (Return text, p2))
  /\ (content result = [] ->
      sync_call_mcp_tool env tool_name kwargs p = (Return (result_str result), p2))
  /\ (forall first rest,
        content result = first :: rest -> part_text first = None ->
        sync_call_mcp_tool env tool_name kwargs p
        = (Return (RoundTrip.error_text tool_name
                     (has_no_attribute (part_class first) "text")), p2))
  /\ exists text, sync_call_mcp_tool env tool_name kwargs p = (Return text, p2).
Proof.
  intros Hloop Hget Hrun.
  pose proof (_call_spec env tool_name kwargs p) as Hcall.
  rewrite Hget, Hrun in Hcall.
  assert (Hwrap : sync_call_mcp_tool env tool_name kwargs p
                  = match content result with
                    | first :: _ =>
                        match part_text first with
                        | Some text => (Return text, p2)
                        | None =>
                            (Return (RoundTrip.error_text tool_name
                                       (has_no_attribute (part_class first) "text")), p2)
                        end
                    | [] => (Return (result_str result), p2)
                    end).
  { unfold sync_call_mcp_tool, try_except_Exception, bind at 1, ask_world.
    rewrite Hloop, Hcall.
    destruct (content result) as [|first rest]; [reflexivity |].
    destruct (part_text first); reflexivity. }
  rewrite Hwrap.
  split; [| split; [| split]].
  - intros first rest text Hcontent Htext. now rewrite Hcontent, Htext.
  - intros Hcontent. now rewrite Hcontent.
  - intros first rest Hcontent Htext. now rewrite Hcontent, Htext.
  - destruct (content result) as [|first rest]; [eexists; reflexivity |].
    destruct (part_text first); eexists; reflexivity.
Qed.

Lemma wrapper_returns_text_of_first_part_witness :
  env_event_loop Scenarios.healthy (history Scenarios.fresh_process) = Return tt
  /\ content Scenarios.three_models = [Scenarios.text_part "3 models"]
  /\ fst (sync_call_mcp_tool Scenarios.healthy "list_models" []
            Scenarios.fresh_process)
     = Return "3 models".
Proof.
  split; [reflexivity |]. split; [reflexivity |].
  pose proof (wrapper_returns_text_of_first_part Scenarios.healthy "list_models" []
                Scenarios.fresh_process 0
                (snd (get_mcp_client Scenarios.healthy Scenarios.fresh_process))
                Scenarios.three_models
                (snd (sync_call_mcp_tool Scenarios.healthy "list_models" []
                        Scenarios.fresh_process))) as H.
  destruct H as [Hfirst _]; [reflexivity | vm_compute; reflexivity
                            | vm_compute; reflexivity |].
  rewrite (Hfirst (Scenarios.text_part "3 models") [] "3 models" eq_refl eq_refl).
  reflexivity.
Defined.

(** C2, the claim as stated, fails: the round trip returns a result whose
    second part carries a text, and the wrapper returns neither that text
    nor [str(result)]. *)
Lemma wrapper_misses_a_later_text :
  fst (bind (get_mcp_client Scenarios.answers_with_image)
            (fun client => on client (call_tool Scenarios.answers_with_image
                                        "get_lineage" (Some [])))
            Scenarios.fresh_process)
  = Return Scenarios.image_then_text
  /\ Wording.spec_first_text_found (content Scenarios.image_then_text)
     = Some "lineage.png shows 3 models"
  /\ fst (sync_call_mcp_tool Scenarios.answers_with_image "get_lineage" []
            Scenarios.fresh_process)
     = Return "Error calling MCP tool 'get_lineage': 'ImageContent' object has no attribute 'text'"
  /\ fst (sync_call_mcp_tool Scenarios.answers_with_image "get_lineage" []
            Scenarios.fresh_process)
     <> Return "lineage.png shows 3 models".
Proof.
  split; [vm_compute; reflexivity |].
  split; [reflexivity |].
  split; [vm_compute; reflexivity |].
  vm_compute. discriminate.
Qed.

(** ** Discovery *)

Section Discovery.
Variable env : Env.



End Discovery.




(** ** The answer of a turn *)

Lemma scan_skips (passed rest : list Message) (result : TurnResult) :
  (forall msg, In msg passed -> Turn.skipped msg) ->
  scan (passed ++ rest) result = scan rest result.
Proof.
  induction passed as [|msg passed IH]; intros Hskip; [reflexivity |].
  cbn [app scan].
  destruct (Hskip msg (or_introl eq_refl)) as [Hai Hstr].
  rewrite Hai, Hstr. apply IH. intros x Hx. apply Hskip. now right.
Qed.

Lemma scan_stops (msg : Message) (rest : list Message) (result : TurnResult)
    (v : Value) :
  is_ai msg || has_str_content msg = true ->
  msg_content msg = Some v ->
  scan (msg :: rest) result = Return v.
Proof.
  intros Hstop Hcontent. cbn [scan]. rewrite Hcontent.
  destruct (is_ai msg); [reflexivity |].
  cbn [orb] in Hstop. now rewrite Hstop.
Qed.

(** C3 (as amended). After a turn that returned a result, [ask_agent] goes
    through the messages from the last to the first and returns the content
    of the first one that is assistant-typed or whose content is a string,
    whoever authored it; so it returns the latest assistant content exactly
    when no later message has string content.  It returns [str(result)] only
    when no message is assistant-typed or has string content. *)
Theorem ask_agent_returns_last_ai_or_text
    (agent : Agent) (question : string) (result : TurnResult) :
  invoke agent question = Return result ->
  (forall before msg after v,
      get_messages result = (before ++ msg :: after)%list ->
      (forall later, In later after -> Turn.skipped later) ->
      is_ai msg || has_str_content msg = true ->
      msg_content msg = Some v ->
      ask_agent (Return agent) question = Return v)
  /\ ((forall msg, In msg (get_messages result) -> Turn.skipped msg) ->
      ask_agent (Return agent) question = Return (Str (turn_str result))).
Proof.
  intros Hturn. split.
  - intros before msg after v Hmessages Hlater Hstop Hcontent.
    unfold ask_agent. rewrite Hturn, Hmessages.
    rewrite rev_app_distr. cbn [rev]. rewrite <- app_assoc. cbn [app].
    rewrite scan_skips.
    + now rewrite (scan_stops msg (rev before) result v Hstop Hcontent).
    + intros x Hx. apply Hlater. now apply in_rev.
  - intros Hall.
    unfold ask_agent. rewrite Hturn.
    rewrite <- (app_nil_r (rev (get_messages result))).
    rewrite scan_skips; [reflexivity |].
    intros x Hx. apply Hall. now apply in_rev.
Qed.

Lemma ask_agent_returns_last_ai_or_text_witness :
  invoke (Turn.always_answers "3 tables: a, b, c") "What tables do we have?"
  = Return (mkTurnResult
              (Some [Turn.human "What tables do we have?"; Turn.ai "3 tables: a, b, c"])
              "{'messages': [...]}")
  /\ ask_agent (Return (Turn.always_answers "3 tables: a, b, c"))
               "What tables do we have?"
     = Return (Str "3 tables: a, b, c").
Proof.
  split; [reflexivity |].
  destruct (ask_agent_returns_last_ai_or_text
              (Turn.always_answers "3 tables: a, b, c") "What tables do we have?"
              _ eq_refl) as [Hlast _].
  apply (Hlast [Turn.human "What tables do we have?"] (Turn.ai "3 tables: a, b, c") []).
  - reflexivity.
  - intros later [].
  - reflexivity.
  - reflexivity.
Defined.

(** C3, the claim as stated, fails: the turn holds an assistant text and
    ends on a tool message, and [ask_agent] returns the text of the tool
    message. *)
Lemma ask_agent_returns_a_tool_text :
  match invoke Turn.ends_on_tool_output "What tables do we have?" with
  | Return result =>
      Wording.spec_latest_assistant_text (rev (get_messages result))
      = Some "We have 3 tables."
  | Raise _ => False
  end
  /\ ask_agent (Return Turn.ends_on_tool_output) "What tables do we have?"
     = Return (Str "orders, customers, items")
  /\ is_ai (Turn.tool "orders, customers, items") = false.
Proof. repeat split. Qed.

(** * Further properties of the session client *)

Section ClientRequests.
Variable env : Env.

(** [_list_available_tools] with a session: one request, and its outcome
    by what the world answers. *)
Lemma _list_available_tools_request (f : Frame) (s : ClientSession) :
  session (self f) = Some s ->
  let asked := (trace f ++ [ListTools s])%list in
  match env_list_tools env s asked with
  | Return tools =>
      exists printed,
        _list_available_tools env f
        = (Return tt, mkFrame (self f) (asked ++ printed)%list)
        /\ filter is_io printed = []
  | Raise e =>
      _list_available_tools env f
      = if caught_by_Exception e
        then (Return tt,
              mkFrame (self f)
                      (asked ++ [Print ("Failed to list tools: " ++ exn_str e)])%list)
        else (Raise e, mkFrame (self f) asked)
  end.
Proof.
  intros Hs. cbv zeta.
  remember (_list_available_tools env f) as run eqn:Hrun.
  unfold _list_available_tools, bind at 1, get_self in Hrun. rewrite Hs in Hrun.
  unfold try_except_Exception in Hrun.
  unfold bind at 1, emit in Hrun; cbn [self trace] in Hrun.
  unfold bind at 1, ask in Hrun; cbn [self trace] in Hrun.
  destruct (env_list_tools env s (trace f ++ [ListTools s])%list) as [tools|e].
  - unfold bind at 1, print, emit in Hrun; cbn [self trace] in Hrun.
    unfold bind at 1 in Hrun; cbn [self trace] in Hrun.
    unfold bind at 1 in Hrun.
    match type of Hrun with
    | context [for_each tools ?body ?fr] =>
        destruct (for_each_prints body tools) with (f := fr) as [added [Hloop Hio]]
    end.
    { intros x g. unfold bind, print, emit, ret.
      destruct (truthy_str (description x)); cbn [self trace]; eexists;
        (split; [rewrite <- ?app_assoc; reflexivity | reflexivity]). }
    rewrite Hloop in Hrun. cbn [self trace] in Hrun.
    eexists. split.
    + rewrite Hrun. rewrite <- !app_assoc. cbn [app]. reflexivity.
    + cbn [filter is_io]. rewrite ?filter_app, Hio. reflexivity.
  - rewrite Hrun. destruct (caught_by_Exception e); reflexivity.
Qed.

End ClientRequests.

Section ClientLifecycle.
Variable env : Env.

Ltac step_in H :=
  cbv [bind set_exit_stack enter_async_context get_self emit ask ret raise
       set_session set_connected print option_map
       self trace session exit_stack _connected] in H.

(** Once the handshake has succeeded, what is left of the [try] block of
    [connect] is the listing of the tools, on a client that is connected. *)
Lemma connect_try_after_handshake (f : Frame) (t : Transport) :
  let s := mkSession t in
  let tr1 := (trace f ++ [Spawn server_command server_args])%list in
  let tr2 := (tr1 ++ [EnterSession s])%list in
  let tr3 := (tr2 ++ [Initialize s])%list in
  env_stdio_client env tr1 = Return t ->
  env_session_enter env s tr2 = Return tt ->
  env_initialize env s tr3 = Return tt ->
  connect_try env f
  = _list_available_tools env
      (mkFrame (mkClient (Some s) (Some [SessionContext s; StdioStreams t]) true)
               (tr3 ++ [Print "Successfully connected to DBT MCP Server"])%list).
Proof.
  destruct f as [[s0 st0 k0] tr0]. cbv zeta.
  cbn [self trace session exit_stack _connected].
  intros Hspawn Henter Hinit.
  remember (connect_try env (mkFrame (mkClient s0 st0 k0) tr0)) as run eqn:Hrun.
  unfold connect_try in Hrun.
  step_in Hrun. rewrite Hspawn in Hrun.
  step_in Hrun. rewrite Henter in Hrun.
  step_in Hrun. rewrite Hinit in Hrun.
  step_in Hrun. rewrite Hrun.
  destruct (_list_available_tools env _) as [r fl]. reflexivity.
Qed.


End ClientLifecycle.

(** When the subprocess starts, the session opens and the handshake
    succeeds, [connect] on a client that is not connected returns with the
    flag set, the session handle set and both contexts on the exit stack,
    also when the listing of the tools that follows fails with an
    [Exception]; after the handshake exactly one further request is sent.
    This is [connect] with a standard output that takes every line. *)
Lemma connect_after_handshake
    (env : Env) (c : DBTMCPClient) (tr : Trace) (t : Transport) :
  let s := mkSession t in
  let tr1 := (tr ++ [Spawn server_command server_args])%list in
  let tr2 := (tr1 ++ [EnterSession s])%list in
  let tr3 := (tr2 ++ [Initialize s])%list in
  let asked := (tr3 ++ [Print "Successfully connected to DBT MCP Server";
                        ListTools s])%list in
  _connected c = false ->
  env_stdio_client env tr1 = Return t ->
  env_session_enter env s tr2 = Return tt ->
  env_initialize env s tr3 = Return tt ->
  (forall e, env_list_tools env s asked = Raise e -> caught_by_Exception e = true) ->
  exists printed,
    connect env (mkFrame c tr)
    = (Return tt,
       mkFrame (mkClient (Some s) (Some [SessionContext s; StdioStreams t]) true)
               (asked ++ printed)%list)
    /\ filter is_io printed = [].
Proof.
  cbv zeta. intros Hk Hspawn Henter Hinit Hlist.
  unfold connect, bind at 1, get_self. cbn [self]. rewrite Hk.
  unfold try_except_Exception.
  rewrite (connect_try_after_handshake env (mkFrame c tr) t Hspawn Henter Hinit).
  cbn [self trace].
  match goal with
  | |- context [_list_available_tools env ?fr] =>
      pose proof (_list_available_tools_request env fr (mkSession t) eq_refl) as Hreq
  end.
  cbv zeta in Hreq. cbn [self trace] in Hreq.
  set (tr3 := (((tr ++ [Spawn server_command server_args])
                ++ [EnterSession (mkSession t)])
               ++ [Initialize (mkSession t)])%list) in *.
  assert (Heq : ((tr3 ++ [Print "Successfully connected to DBT MCP Server"])
                 ++ [ListTools (mkSession t)]
                 = tr3 ++ [Print "Successfully connected to DBT MCP Server";
                           ListTools (mkSession t)])%list)
    by (rewrite <- app_assoc; reflexivity).
  rewrite Heq in Hreq.
  destruct (env_list_tools env (mkSession t) _) as [tools|e].
  - destruct Hreq as [printed [Hrun Hio]]. rewrite Hrun.
    exists printed. split; [reflexivity | exact Hio].
  - rewrite (Hlist e eq_refl) in Hreq. rewrite Hreq.
    eexists. split; reflexivity.
Qed.





(** X4. On a connected client [list_tools] sends one request and gives
    back the session's answer (the list as it is, or the exception as it
    is), without printing and without changing the client.  Nothing is kept
    from one call to the next: a second call sends a second request and
    gives what the session answers then. *)
Theorem list_tools_asks_every_time
    (env : Env) (c : DBTMCPClient) (tr : Trace) (s : ClientSession) :
  _connected c = true ->
  session c = Some s ->
  let asked := (tr ++ [ListTools s])%list in
  let asked_again := (asked ++ [ListTools s])%list in
  list_tools env (mkFrame c tr) = (env_list_tools env s asked, mkFrame c asked)
  /\ (forall tools,
        env_list_tools env s asked = Return tools ->
        bind (list_tools env) (fun _ => list_tools env) (mkFrame c tr)
        = (env_list_tools env s asked_again, mkFrame c asked_again)).
Proof.
  intros Hk Hs. cbv zeta.
  assert (Hone : forall tr0,
             list_tools env (mkFrame c tr0)
             = (env_list_tools env s (tr0 ++ [ListTools s])%list,
                mkFrame c (tr0 ++ [ListTools s])%list)).
  { intros tr0. unfold list_tools, bind at 1, get_self. cbn [self]. rewrite Hk, Hs.
    cbn [negb orb truthy]. unfold bind, emit, ask. cbn [self trace]. reflexivity. }
  split; [apply Hone |].
  intros tools Hfirst. unfold bind. rewrite Hone, Hfirst. apply Hone.
Qed.

Lemma list_tools_asks_every_time_witness :
  _connected Scenarios.connected_client = true
  /\ list_tools Scenarios.healthy (mkFrame Scenarios.connected_client [])
     = (Return [Scenarios.list_models; Scenarios.get_lineage],
        mkFrame Scenarios.connected_client [ListTools (mkSession 1)]).
Proof.
  split; [reflexivity |].
  exact (proj1 (list_tools_asks_every_time Scenarios.healthy Scenarios.connected_client
                  [] (mkSession 1) eq_refl eq_refl)).
Defined.

(** X6. A second [close] does nothing: whatever the first one did, in
    whatever world, the next one returns at once and leaves the client and
    the history as they are. *)
Theorem close_twice_is_close_once
    (env env' : Env) (c : DBTMCPClient) (tr : Trace) :
  let closed := snd (close env (mkFrame c tr)) in
  close env' closed = (Return tt, closed).
Proof.
  cbv zeta.
  pose proof (close_spec env c tr) as Hspec.
  destruct (exit_stack c) as [stack|] eqn:Hstack.
  - destruct Hspec as [r [log [Hrun _]]]. rewrite Hrun. reflexivity.
  - rewrite Hspec. cbn [snd].
    pose proof (close_spec env' c tr) as Hagain.
    rewrite Hstack in Hagain. exact Hagain.
Qed.

(** * Further properties of the global client *)

Section GlobalLifecycle.
Variable env : Env.

Lemma length_store (l : list DBTMCPClient) :
  forall a c, length (store a c l) = length l.
Proof.
  induction l as [|x rest IH]; intros [|a] c; cbn; try reflexivity.
  now rewrite IH.
Qed.


(** What [get_mcp_client] returns is the address in the global, and the
    object there is connected. *)
Lemma get_mcp_client_returns (p : Process) (a : nat) (p' : Process) :
  well_formed p ->
  get_mcp_client env p = (Return a, p') ->
  _client_instance p' = Some a /\ connected_at p' a.
Proof.
  intros Hwf Hget.
  destruct (_client_instance p) as [a0|] eqn:Hg.
  - assert (Hlt : a0 < length (objects p)) by now apply Hwf.
    destruct (nth_error (objects p) a0) as [c|] eqn:Hobj.
    2:{ apply nth_error_None in Hobj. lia. }
    destruct (connect env (mkFrame c (history p))) as [r f] eqn:Hrun.
    rewrite (get_mcp_client_reuses env p a0 c r f Hg Hobj Hrun) in Hget.
    destruct (_connected c) eqn:Hk.
    + inversion Hget; subst. split; [exact Hg |]. exists c. now split.
    + destruct r as [[]|e]; [| discriminate].
      inversion Hget; subst. cbn. split; [reflexivity |].
      exists (self f). split.
      * now apply nth_error_store.
      * now apply (connect_returns_connected env _ _ Hrun).
  - destruct (connect env (mkFrame __init__ (history p))) as [r f] eqn:Hrun.
    rewrite (get_mcp_client_creates env p r f Hg Hrun) in Hget.
    destruct r as [[]|e]; [| discriminate].
    inversion Hget; subst. cbn. split; [reflexivity |].
    exists (self f). split.
    + apply nth_error_new.
    + now apply (connect_returns_connected env _ _ Hrun).
Qed.


(** [close_global_client] by cases. *)
Lemma close_global_client_spec (p : Process) :
  match _client_instance p with
  | None => close_global_client env p = (Return tt, p)
  | Some a =>
      forall c, nth_error (objects p) a = Some c ->
        close_global_client env p
        = (fst (close env (mkFrame c (history p))),
           mkProcess (store a (self (snd (close env (mkFrame c (history p))))) (objects p))
                     (match fst (close env (mkFrame c (history p))) with
                      | Return _ => None
                      | Raise _ => Some a
                      end)
                     (trace (snd (close env (mkFrame c (history p))))))
  end.
Proof.
  destruct (_client_instance p) as [a|] eqn:Hg.
  - intros c Hobj. unfold close_global_client, bind, get_global, on.
    rewrite Hg, Hobj.
    destruct (close env (mkFrame c (history p))) as [[[]|e] f]; cbn.
    + reflexivity.
    + rewrite Hg. reflexivity.
  - unfold close_global_client, bind, get_global. rewrite Hg. reflexivity.
Qed.

End GlobalLifecycle.

(** X8. The global client is a singleton: once [get_mcp_client] has
    returned an instance, the next call returns the same instance and
    changes nothing, in whatever world: no second object, no second
    subprocess, not even a printed line. *)
Theorem get_mcp_client_is_a_singleton
    (env env' : Env) (p : Process) (a : nat) (p1 : Process) :
  well_formed p ->
  get_mcp_client env p = (Return a, p1) ->
  get_mcp_client env' p1 = (Return a, p1).
Proof.
  intros Hwf Hget.
  destruct (get_mcp_client_returns env p a p1 Hwf Hget) as [Hg [c [Hobj Hk]]].
  destruct (connect env' (mkFrame c (history p1))) as [r f] eqn:Hrun.
  rewrite (get_mcp_client_reuses env' p1 a c r f Hg Hobj Hrun), Hk. reflexivity.
Qed.

Lemma get_mcp_client_is_a_singleton_witness :
  well_formed Scenarios.fresh_process
  /\ get_mcp_client Scenarios.call_fails Worlds.serving = (Return 0, Worlds.serving).
Proof.
  assert (Hwf : well_formed Scenarios.fresh_process).
  { intros a H. discriminate H. }
  split; [exact Hwf |].
  apply (get_mcp_client_is_a_singleton Scenarios.healthy Scenarios.call_fails
           Scenarios.fresh_process 0 Worlds.serving Hwf).
  vm_compute. reflexivity.
Defined.

(** X9. After [close_global_client] has returned, the global is unset and
    no object was added or removed; the next [get_mcp_client] that returns
    gives a new object, at an address no earlier object has, and that
    object is connected.  The closed instance is not used again. *)
Theorem close_global_client_forgets_the_instance
    (env env' : Env) (p p1 : Process) :
  well_formed p ->
  close_global_client env p = (Return tt, p1) ->
  _client_instance p1 = None
  /\ length (objects p1) = length (objects p)
  /\ forall a p2,
       get_mcp_client env' p1 = (Return a, p2) ->
       a = length (objects p)
       /\ (forall old, _client_instance p = Some old -> a <> old)
       /\ connected_at p2 a.
Proof.
  intros Hwf Hclose.
  assert (Hshape : _client_instance p1 = None
                   /\ length (objects p1) = length (objects p)).
  { pose proof (close_global_client_spec env p) as Hspec.
    destruct (_client_instance p) as [a0|] eqn:Hg.
    - assert (Hlt : a0 < length (objects p)) by now apply Hwf.
      destruct (nth_error (objects p) a0) as [c|] eqn:Hobj.
      2:{ apply nth_error_None in Hobj. lia. }
      rewrite (Hspec c eq_refl) in Hclose.
      inversion Hclose as [[Hr Hp1]].
      rewrite Hr. cbn. split; [reflexivity | apply length_store].
    - rewrite Hspec in Hclose. inversion Hclose; subst. now split. }
  destruct Hshape as [Hnone Hlen].
  split; [exact Hnone |]. split; [exact Hlen |].
  intros a p2 Hget.
  assert (Hwf1 : well_formed p1) by (intros x Hx; congruence).
  destruct (get_mcp_client_returns env' p1 a p2 Hwf1 Hget) as [_ Hconn].
  destruct (connect env' (mkFrame __init__ (history p1))) as [r f] eqn:Hrun.
  rewrite (get_mcp_client_creates env' p1 r f Hnone Hrun) in Hget.
  destruct r as [[]|e]; [| discriminate].
  inversion Hget as [[Ha Hp2]]. rewrite Hp2, Ha.
  split; [rewrite <- Ha; exact Hlen |]. split; [| exact Hconn].
  intros old Hold. specialize (Hwf old Hold). lia.
Qed.

Lemma close_global_client_forgets_the_instance_witness :
  well_formed Worlds.serving
  /\ fst (close_global_client Scenarios.healthy Worlds.serving) = Return tt
  /\ _client_instance (snd (close_global_client Scenarios.healthy Worlds.serving))
     = None.
Proof.
  assert (Hwf : well_formed Worlds.serving).
  { intros a H. vm_compute in H. inversion H. vm_compute. lia. }
  split; [exact Hwf |]. split; [vm_compute; reflexivity |].
  apply (close_global_client_forgets_the_instance Scenarios.healthy Scenarios.healthy
           Worlds.serving _ Hwf).
  vm_compute. reflexivity.
Defined.

(** * The test script *)

Section TestScript.
Variable env : Env.
Import test_mcp.


Lemma say_well_formed (line : string) (p : Process) :
  well_formed p -> well_formed (snd (say line p)).
Proof. intros Hwf. exact Hwf. Qed.


End TestScript.



(** ** Command-line arguments *)

Section CommandLine.
Import test_mcp.

Lemma split_at_equals_has_equals (arg : string) :
  has_equals arg = false <-> split_at_equals arg = None.
Proof.
  induction arg as [|c rest IH]; cbn; [tauto |].
  destruct (Ascii.eqb c "="%char); cbn; [split; discriminate |].
  destruct (split_at_equals rest) as [[k v]|]; split; intros H;
    try discriminate; try reflexivity.
  - apply IH in H. discriminate.
  - now apply IH.
Qed.

Lemma split_at_equals_join (key value : string) :
  has_equals key = false ->
  split_at_equals (key ++ "=" ++ value) = Some (key, value).
Proof.
  induction key as [|c key IH]; intros Hno; cbn in *; [reflexivity |].
  apply orb_false_iff in Hno. destruct Hno as [Hc Hrest].
  rewrite Hc. now rewrite IH.
Qed.

Lemma split_at_equals_parts (arg key value : string) :
  split_at_equals arg = Some (key, value) ->
  arg = key ++ "=" ++ value /\ has_equals key = false.
Proof.
  revert key value. induction arg as [|c rest IH]; intros key value H; cbn in H;
    [discriminate |].
  destruct (Ascii.eqb c "="%char) eqn:Hc.
  - inversion H; subst. apply Ascii.eqb_eq in Hc. subst c. now split.
  - destruct (split_at_equals rest) as [[k v]|]; [| discriminate].
    inversion H; subst. destruct (IH k value eq_refl) as [Hrest Hno].
    cbn. rewrite Hc, Hno, Hrest. now split.
Qed.

Lemma dict_get_set_same (key value : string) (args : Arguments) :
  dict_get key (dict_set key value args) = Some value.
Proof.
  induction args as [|[k v] rest IH]; cbn.
  - now rewrite String.eqb_refl.
  - destruct (String.eqb k key) eqn:Hk; cbn; rewrite Hk; [reflexivity | exact IH].
Qed.

Lemma dict_get_set_other (key other value : string) (args : Arguments) :
  other <> key ->
  dict_get other (dict_set key value args) = dict_get other args.
Proof.
  intros Hne. induction args as [|[k v] rest IH]; cbn.
  - destruct (String.eqb key other) eqn:Hk; [| reflexivity].
    apply String.eqb_eq in Hk. congruence.
  - destruct (String.eqb k key) eqn:Hk; cbn.
    + apply String.eqb_eq in Hk. subst k.
      destruct (String.eqb key other) eqn:Hko; [| reflexivity].
      apply String.eqb_eq in Hko. congruence.
    + now rewrite IH.
Qed.

Lemma dict_set_keys (key value k : string) (args : Arguments) :
  In k (map fst (dict_set key value args)) -> k = key \/ In k (map fst args).
Proof.
  induction args as [|[k0 v0] rest IH]; cbn.
  - intros [H | []]. now left.
  - destruct (String.eqb k0 key) eqn:Hk; cbn.
    + intros [H | H]; right; [now left | now right].
    + intros [H | H]; [right; now left |].
      destruct (IH H) as [He | Hin]; [now left | right; now right].
Qed.

Lemma parse_args_keys (argv : list string) (k : string) :
  forall args,
    In k (map fst (parse_args argv args)) ->
    In k (map fst args)
    \/ exists arg value, In arg argv /\ split_at_equals arg = Some (k, value).
Proof.
  induction argv as [|arg rest IH]; intros args Hin; cbn in Hin; [now left |].
  destruct (split_at_equals arg) as [[key value]|] eqn:Hsplit.
  - destruct (IH _ Hin) as [Hset | [a [v [Ha Hs]]]].
    + destruct (dict_set_keys _ _ _ _ Hset) as [He | Hold]; [| now left].
      subst k. right. exists arg, value. split; [now left | exact Hsplit].
    + right. exists a, v. split; [now right | exact Hs].
  - destruct (IH _ Hin) as [Hold | [a [v [Ha Hs]]]]; [now left |].
    right. exists a, v. split; [now right | exact Hs].
Qed.

Lemma parse_args_app (front back : list string) (args : Arguments) :
  parse_args (front ++ back) args = parse_args back (parse_args front args).
Proof.
  revert args. induction front as [|arg front IH]; intros args; cbn; [reflexivity |].
  destruct (split_at_equals arg) as [[k v]|]; apply IH.
Qed.

Lemma parse_args_keeps_others (argv : list string) (key : string) :
  (forall arg k v, In arg argv -> split_at_equals arg = Some (k, v) -> k <> key) ->
  forall args, dict_get key (parse_args argv args) = dict_get key args.
Proof.
  induction argv as [|arg rest IH]; intros Hother args; cbn; [reflexivity |].
  destruct (split_at_equals arg) as [[k v]|] eqn:Hsplit.
  - rewrite IH.
    + apply dict_get_set_other. intros Heq.
      apply (Hother arg k v (or_introl eq_refl) Hsplit). congruence.
    + intros a k' v' Hin. apply Hother. now right.
  - apply IH. intros a k' v' Hin. apply Hother. now right.
Qed.

End CommandLine.

(** X11. Parsing the [key=value] arguments of the test script: an
    argument is split at its first ['='], so the value may itself contain
    ['=']; the last argument given for a key decides the value the tool is
    called with; arguments after it for other keys do not change it. *)
Theorem parse_args_last_assignment_wins
    (before after : list string) (key value : string) (args : Arguments) :
  test_mcp.has_equals key = false ->
  (forall arg k v, In arg after ->
                   test_mcp.split_at_equals arg = Some (k, v) -> k <> key) ->
  test_mcp.split_at_equals (key ++ "=" ++ value) = Some (key, value)
  /\ test_mcp.dict_get key
       (test_mcp.parse_args (before ++ (key ++ "=" ++ value) :: after) args)
     = Some value.
Proof.
  intros Hkey Hafter.
  pose proof (split_at_equals_join key value Hkey) as Hsplit.
  split; [exact Hsplit |].
  rewrite parse_args_app. cbn [test_mcp.parse_args]. rewrite Hsplit.
  rewrite (parse_args_keeps_others after key Hafter).
  apply dict_get_set_same.
Qed.

Lemma parse_args_last_assignment_wins_witness :
  test_mcp.has_equals "where" = false
  /\ test_mcp.dict_get "where"
       (test_mcp.parse_args ["where=a=1"; "verbose"; "where=b=2"; "limit=5"] [])
     = Some "b=2".
Proof.
  split; [reflexivity |].
  apply (parse_args_last_assignment_wins ["where=a=1"; "verbose"] ["limit=5"]
           "where" "b=2" [] eq_refl).
  intros arg k v [Harg | []] Hsplit. subst arg. cbn in Hsplit.
  inversion Hsplit. discriminate.
Defined.

(** X12. An argument without ['='] is ignored by the parsing, wherever it
    stands.  Every key of the mapping parsed from the command line comes
    from an argument that has an ['=']: it is the text before the first
    ['='] of that argument, and has no ['='] itself. *)
Theorem parse_args_ignores_bare_words
    (before after : list string) (word : string) :
  test_mcp.has_equals word = false ->
  test_mcp.parse_args (before ++ word :: after) []
  = test_mcp.parse_args (before ++ after) []
  /\ forall key,
       In key (map fst (test_mcp.parse_args (before ++ word :: after) [])) ->
       test_mcp.has_equals key = false
       /\ exists arg value,
            In arg (before ++ after) /\ arg = key ++ "=" ++ value.
Proof.
  intros Hword.
  apply split_at_equals_has_equals in Hword.
  assert (Hsame : test_mcp.parse_args (before ++ word :: after) []
                  = test_mcp.parse_args (before ++ after) []).
  { rewrite !parse_args_app. cbn [test_mcp.parse_args]. now rewrite Hword. }
  split; [exact Hsame |].
  intros key Hin. rewrite Hsame in Hin.
  destruct (parse_args_keys _ _ _ Hin) as [[] | [arg [value [Harg Hsplit]]]].
  destruct (split_at_equals_parts _ _ _ Hsplit) as [Hjoin Hno].
  split; [exact Hno |]. exists arg, value. now split.
Qed.

Lemma parse_args_ignores_bare_words_witness :
  test_mcp.has_equals "verbose" = false
  /\ test_mcp.parse_args ["limit=5"; "verbose"; "depth=2"] []
     = test_mcp.parse_args ["limit=5"; "depth=2"] [].
Proof.
  split; [reflexivity |].
  exact (proj1 (parse_args_ignores_bare_words ["limit=5"] ["depth=2"] "verbose"
                  eq_refl)).
Defined.

(** ** The tool the connection test tries *)

Section ChosenTool.
Import test_mcp.
Variable lower : string -> string.

Lemma first_named_from (wanted : string -> bool) (tools : list Tool)
    (before : option string) :
  first_named lower wanted tools before = before
  \/ exists tool, In tool tools
                  /\ wanted (lower (name tool)) = true
                  /\ first_named lower wanted tools before = Some (name tool).
Proof.
  induction tools as [|tool rest IH]; cbn; [now left |].
  destruct (wanted (lower (name tool))) eqn:Hw.
  - right. exists tool. split; [now left |]. split; [exact Hw | reflexivity].
  - destruct IH as [Hsame | [t [Hin [Hwt Hfound]]]]; [now left |].
    right. exists t. repeat split; [now right | exact Hwt | exact Hfound].
Qed.

Lemma first_named_prefers (wanted : string -> bool) (skipped rest : list Tool)
    (tool : Tool) (before : option string) :
  (forall t, In t skipped -> wanted (lower (name t)) = false) ->
  wanted (lower (name tool)) = true ->
  first_named lower wanted (skipped ++ tool :: rest) before = Some (name tool).
Proof.
  intros Hskip Hw. induction skipped as [|t skipped IH]; cbn.
  - now rewrite Hw.
  - rewrite (Hskip t (or_introl eq_refl)). apply IH.
    intros x Hx. apply Hskip. now right.
Qed.

End ChosenTool.

(** X26. The tool the connection test tries is always one of the tools
    the server listed.  With an empty list none is chosen; with a list
    whose first tool has a name that is not empty, the choice is a name
    that is not empty, so that a tool is tried.  A tool whose lower-cased
    name contains "discovery" or "list" is preferred to every other tool,
    wherever it stands in the list: the first such tool is the one chosen
    (when its name is not empty). *)
Theorem chosen_test_tool_is_listed_and_named
    (lower : string -> string) (tools : list Tool) :
  (forall chosen, test_mcp.choose_test_tool lower tools = Some chosen ->
                  exists tool, In tool tools /\ name tool = chosen)
  /\ (tools = [] -> test_mcp.choose_test_tool lower tools = None)
  /\ (forall first rest,
        tools = first :: rest ->
        name first <> "" ->
        truthy_str (test_mcp.choose_test_tool lower tools) = true)
  /\ (forall skipped tool rest,
        tools = (skipped ++ tool :: rest)%list ->
        (forall t, In t skipped ->
                   test_mcp.occurs "discovery" (lower (name t))
                   || test_mcp.occurs "list" (lower (name t)) = false) ->
        test_mcp.occurs "discovery" (lower (name tool))
        || test_mcp.occurs "list" (lower (name tool)) = true ->
        name tool <> "" ->
        test_mcp.choose_test_tool lower tools = Some (name tool)).
Proof.
  split; [| split; [| split]].
  - intros chosen. unfold test_mcp.choose_test_tool.
    set (wanted1 := fun n => test_mcp.occurs "discovery" n || test_mcp.occurs "list" n).
    set (wanted2 := fun n => test_mcp.occurs "model" n).
    destruct (first_named_from lower wanted1 tools None) as [H1 | [t1 [Hin1 [_ H1]]]];
      rewrite H1.
    + cbn [truthy_str negb].
      destruct (first_named_from lower wanted2 tools None) as [H2 | [t2 [Hin2 [_ H2]]]];
        rewrite H2.
      * cbn [truthy_str negb andb].
        destruct tools as [|tool rest]; cbn; [discriminate |].
        intros H. inversion H. exists tool. split; [now left | reflexivity].
      * destruct (negb (truthy_str (Some (name t2))) && negb (Nat.eqb (length tools) 0)).
        -- destruct tools as [|tool rest]; [destruct Hin2 |].
           intros H. inversion H. exists tool. split; [now left | reflexivity].
        -- intros H. inversion H. now exists t2.
    + assert (Hpick : forall o,
                (if negb (truthy_str (Some (name t1)))
                 then test_mcp.first_named lower wanted2 tools (Some (name t1))
                 else Some (name t1)) = o ->
                exists tool, In tool tools /\ Some (name tool) = o).
      { intros o Ho. destruct (negb (truthy_str (Some (name t1)))).
        - destruct (first_named_from lower wanted2 tools (Some (name t1)))
            as [H2 | [t2 [Hin2 [_ H2]]]]; rewrite H2 in Ho; subst o.
          + now exists t1.
          + now exists t2.
        - subst o. now exists t1. }
      destruct (Hpick _ eq_refl) as [tool [Hin Hsome]]. rewrite <- Hsome.
      destruct (negb (truthy_str (Some (name tool))) && negb (Nat.eqb (length tools) 0)).
      * destruct tools as [|first rest]; [destruct Hin |].
        intros H. inversion H. exists first. split; [now left | reflexivity].
      * intros H. inversion H. now exists tool.
  - intros Hnil. subst tools. reflexivity.
  - intros first rest Htools Hname. subst tools.
    unfold test_mcp.choose_test_tool.
    match goal with
    | |- truthy_str (if negb (truthy_str ?tt) && _ then _ else _) = true =>
        destruct (truthy_str tt) eqn:Htt
    end.
    + cbn [negb andb]. exact Htt.
    + cbn [negb andb length Nat.eqb]. cbn [truthy_str].
      destruct (name first) as [|ch n]; [congruence | reflexivity].
  - intros skipped tool rest Htools Hskip Hwanted Hname. subst tools.
    unfold test_mcp.choose_test_tool.
    rewrite (first_named_prefers lower _ skipped rest tool None Hskip Hwanted).
    destruct (name tool) as [|c n] eqn:Hn; [congruence |].
    reflexivity.
Qed.

(** * Further properties of the agent module *)

(** X13. [ask_agent] never raises an [Exception], wherever the failure
    comes from (building the agent, the turn itself, or reading a message
    that lacks its content): the only exceptions that leave it are those
    outside [Exception] other than [KeyboardInterrupt]. *)
Theorem ask_agent_never_raises_an_Exception
    (get_agent : Outcome Agent) (question : string) :
  forall e, ask_agent get_agent question = Raise e ->
    caught_by_Exception e = false /\ exn_class e <> KeyboardInterrupt.
Proof.
  intros e. unfold ask_agent.
  match goal with
  | |- match ?body with _ => _ end = _ -> _ => destruct body as [v|e0]
  end; [discriminate |].
  unfold caught_by_Exception.
  destruct (exn_class e0) eqn:Hclass; cbn [is_Exception]; try discriminate;
    intros H; inversion H; subst; rewrite Hclass; split; (reflexivity || discriminate).
Qed.

Lemma ask_agent_never_raises_an_Exception_witness :
  ask_agent (Raise (mkExn SystemExit "1")) "What tables do we have?"
  = Raise (mkExn SystemExit "1")
  /\ caught_by_Exception (mkExn SystemExit "1") = false.
Proof.
  split; [reflexivity |].
  exact (proj1 (ask_agent_never_raises_an_Exception (Raise (mkExn SystemExit "1"))
                  "What tables do we have?" (mkExn SystemExit "1") eq_refl)).
Defined.

(** X14. A failure while the agent is built or while the turn runs is
    turned into a sentence: an interrupt into "Query interrupted by user.",
    a timeout into "Query timed out.", any other [Exception] into "Sorry, an
    error occurred: <class> - <message>". *)
Theorem ask_agent_reports_failures
    (get_agent : Outcome Agent) (question : string) (e : Exn) :
  get_agent = Raise e
  \/ (exists agent, get_agent = Return agent /\ invoke agent question = Raise e) ->
  (exn_class e = KeyboardInterrupt ->
   ask_agent get_agent question = Return (Str "Query interrupted by user."))
  /\ (exn_class e = TimeoutError ->
      ask_agent get_agent question = Return (Str "Query timed out."))
  /\ (caught_by_Exception e = true -> exn_class e <> TimeoutError ->
      ask_agent get_agent question
      = Return (Str ("Sorry, an error occurred: " ++ class_name (exn_class e)
                     ++ " - " ++ exn_str e))).
Proof.
  intros Hraised.
  assert (Hrun : ask_agent get_agent question
                 = match exn_class e with
                   | KeyboardInterrupt => Return (Str "Query interrupted by user.")
                   | TimeoutError => Return (Str "Query timed out.")
                   | k =>
                       if is_Exception k
                       then Return (Str ("Sorry, an error occurred: " ++ class_name k
                                         ++ " - " ++ exn_str e))
                       else Raise e
                   end).
  { unfold ask_agent.
    destruct Hraised as [Hget | [agent [Hget Hturn]]]; rewrite Hget; [| rewrite Hturn];
      reflexivity. }
  rewrite Hrun. unfold caught_by_Exception.
  split; [| split].
  - intros Hclass. now rewrite Hclass.
  - intros Hclass. now rewrite Hclass.
  - intros Hcaught Hnot.
    destruct (exn_class e); cbn [is_Exception] in Hcaught |- *;
      try discriminate; try reflexivity. congruence.
Qed.

Lemma ask_agent_reports_failures_witness :
  ask_agent (Raise (mkExn KeyboardInterrupt "")) "What tables do we have?"
  = Return (Str "Query interrupted by user.").
Proof.
  apply (ask_agent_reports_failures (Raise (mkExn KeyboardInterrupt ""))
           "What tables do we have?" (mkExn KeyboardInterrupt "")).
  - now left.
  - reflexivity.
Defined.

Section DiscoveryEdge.
Variable env : Env.


End DiscoveryEdge.



(** ** Building the agent *)

(** X16. Without an API key ([OPENAI_API_KEY] unset or empty) and with no
    agent built yet, the agent is not built: [get_agent] raises the
    ValueError before anything is discovered or spawned, the process and the
    global [_agent] are left as they were, and [ask_agent] answers with the
    sentence that carries that error. *)
Theorem no_api_key_no_agent
    (host : agent_factory.Host) (env : Env) (p : Process) (question : string) :
  truthy_str (agent_factory.OPENAI_API_KEY host) = false ->
  agent_factory.get_agent host env (agent_factory.mkProgram p None)
  = (Raise agent_factory.api_key_not_set, agent_factory.mkProgram p None)
  /\ ask_agent (fst (agent_factory.get_agent host env (agent_factory.mkProgram p None)))
               question
     = Return (Str ("Sorry, an error occurred: ValueError - "
                    ++ "OPENAI_API_KEY environment variable is not set. "
                    ++ "Please set it in your .env file or environment.")).
Proof.
  intros Hkey.
  assert (Hrun : agent_factory.get_agent host env (agent_factory.mkProgram p None)
                 = (Raise agent_factory.api_key_not_set,
                    agent_factory.mkProgram p None)).
  { unfold agent_factory.get_agent, agent_factory.create_dbt_agent.
    cbn [agent_factory._agent agent_factory.process].
    destruct (agent_factory.OPENAI_API_KEY host) as [[|c key]|];
      cbn in Hkey; try discriminate; reflexivity. }
  split; [exact Hrun |]. rewrite Hrun. reflexivity.
Qed.

Lemma no_api_key_no_agent_witness :
  truthy_str (agent_factory.OPENAI_API_KEY agent_factory.keyless) = false
  /\ agent_factory.get_agent agent_factory.keyless Scenarios.healthy
       agent_factory.starting
     = (Raise agent_factory.api_key_not_set, agent_factory.starting).
Proof.
  split; [reflexivity |].
  exact (proj1 (no_api_key_no_agent agent_factory.keyless Scenarios.healthy
                  Scenarios.fresh_process "What tables do we have?" eq_refl)).
Defined.

(** X17. [get_agent] builds the agent once: after a call that returned,
    every later call returns the same agent and changes nothing, so nothing
    is discovered or built again, whatever the host and the world have
    become.  A build that failed is not remembered: the global stays unset
    and the next call tries again. *)
Theorem get_agent_builds_once
    (host host' : agent_factory.Host) (env env' : Env)
    (prog prog1 : agent_factory.Program) (r : Outcome Agent) :
  agent_factory.get_agent host env prog = (r, prog1) ->
  match r with
  | Return a =>
      agent_factory._agent prog1 = Some a
      /\ agent_factory.get_agent host' env' prog1 = (Return a, prog1)
  | Raise _ =>
      agent_factory._agent prog = None /\ agent_factory._agent prog1 = None
  end.
Proof.
  unfold agent_factory.get_agent.
  destruct (agent_factory._agent prog) as [a0|] eqn:Hagent.
  - intros H. inversion H; subst. rewrite Hagent. now split.
  - destruct (agent_factory.create_dbt_agent host env (agent_factory.process prog))
      as [[a|e] p]; intros H; inversion H; subst; cbn; now split.
Qed.

Lemma get_agent_builds_once_witness :
  exists a prog1,
    agent_factory.get_agent (agent_factory.ready "3 tables: a, b, c")
      Scenarios.healthy agent_factory.starting = (Return a, prog1)
    /\ agent_factory.get_agent agent_factory.keyless Scenarios.spawn_fails prog1
       = (Return a, prog1).
Proof.
  pose proof (get_agent_builds_once (agent_factory.ready "3 tables: a, b, c")
                agent_factory.keyless Scenarios.healthy Scenarios.spawn_fails
                agent_factory.starting
                (snd (agent_factory.get_agent (agent_factory.ready "3 tables: a, b, c")
                        Scenarios.healthy agent_factory.starting))
                (Return (Turn.always_answers "3 tables: a, b, c"))) as H.
  exists (Turn.always_answers "3 tables: a, b, c"),
         (snd (agent_factory.get_agent (agent_factory.ready "3 tables: a, b, c")
                 Scenarios.healthy agent_factory.starting)).
  assert (Hrun : agent_factory.get_agent (agent_factory.ready "3 tables: a, b, c")
                   Scenarios.healthy agent_factory.starting
                 = (Return (Turn.always_answers "3 tables: a, b, c"),
                    snd (agent_factory.get_agent
                           (agent_factory.ready "3 tables: a, b, c")
                           Scenarios.healthy agent_factory.starting)))
    by (vm_compute; reflexivity).
  split; [exact Hrun |]. exact (proj2 (H Hrun)).
Defined.

(** * The command-line chat *)

Section CommandLineChat.
Import mcp_cli.
Variable host : Host.

Lemma runs_app (a b : list Io) : runs (a ++ b) = (runs a ++ runs b)%list.
Proof.
  induction a as [|ev a IH]; cbn; [reflexivity |].
  destruct ev; cbn; now rewrite IH.
Qed.

Lemma launches_app (a b : list Io) :
  launches (a ++ b) = (launches a ++ launches b)%list.
Proof.
  induction a as [|ev a IH]; cbn; [reflexivity |].
  destruct ev; cbn; now rewrite IH.
Qed.

(** What the loop adds to what has been seen. *)
Lemma chat_extends (keyboard : list Keyboard) :
  forall io, exists added,
    snd (chat host keyboard io) = (io ++ added)%list
    /\ launches added = []
    /\ forall user, In user (runs added) ->
         user <> "" /\ is_quit user = false
         /\ exists text, In (Line text) keyboard /\ user = strip host text.
Proof.
  induction keyboard as [|key rest IH]; intros io.
  - eexists. cbn. split; [reflexivity |]. split; [reflexivity |]. intros u [].
  - destruct key as [text| |].
    2,3: eexists; cbn; split; [reflexivity |]; split; [reflexivity |]; intros u [].
    cbn [chat].
    destruct (String.eqb (strip host text) "") eqn:Hempty.
    { destruct (IH (io ++ [Prompt "You > "])%list) as [added [Hsnd [Hl Hruns]]].
      exists (Prompt "You > " :: added). rewrite Hsnd, <- app_assoc.
      split; [reflexivity |]. split; [exact Hl |].
      intros u Hu. destruct (Hruns u Hu) as [H1 [H2 [t [Ht Hs]]]].
      repeat split; try assumption. exists t. split; [now right | exact Hs]. }
    destruct (is_quit (strip host text)) eqn:Hquit.
    { eexists. cbn [snd]. rewrite <- app_assoc.
      split; [reflexivity |]. split; [reflexivity |]. intros u []. }
    assert (Hhere : forall u, u = strip host text ->
              u <> "" /\ is_quit u = false
              /\ exists t, In (Line t) (Line text :: rest) /\ u = strip host t).
    { intros u Hu. subst u. split.
      - intros Heq. rewrite Heq in Hempty. discriminate.
      - split; [exact Hquit |]. exists text. split; [now left | reflexivity]. }
    destruct (agent_run host (strip host text) _) as [output|e].
    + match goal with
      | |- context [chat host rest ?io'] =>
          destruct (IH io') as [added [Hsnd [Hl Hruns]]]
      end.
      eexists. rewrite Hsnd. rewrite <- !app_assoc. cbn [app].
      split; [reflexivity |]. split; [exact Hl |].
      cbn [runs]. intros u [Hu | Hu]; [now apply Hhere |].
      destruct (Hruns u Hu) as [H1 [H2 [t [Ht Hs]]]].
      repeat split; try assumption. exists t. split; [now right | exact Hs].
    + destruct (caught_by_Exception e).
      * match goal with
        | |- context [chat host rest ?io'] =>
            destruct (IH io') as [added [Hsnd [Hl Hruns]]]
        end.
        eexists. rewrite Hsnd. rewrite <- !app_assoc. cbn [app].
        split; [reflexivity |]. split; [exact Hl |].
        cbn [runs]. intros u [Hu | Hu]; [now apply Hhere |].
        destruct (Hruns u Hu) as [H1 [H2 [t [Ht Hs]]]].
        repeat split; try assumption. exists t. split; [now right | exact Hs].
      * eexists. cbn [snd]. rewrite <- !app_assoc. cbn [app].
        split; [reflexivity |]. split; [reflexivity |].
        cbn [runs]. intros u [Hu | []]. now apply Hhere.
Qed.


Lemma chat_stops (before after : list Keyboard) (key : Keyboard) :
  ends_the_chat host key = true ->
  forall io, chat host (before ++ key :: after) io = chat host (before ++ [key]) io.
Proof.
  intros Hend. induction before as [|k before IH]; intros io.
  - cbn [app]. destruct key as [text| |]; try reflexivity.
    cbn in Hend. apply andb_true_iff in Hend. destruct Hend as [Hne Hq].
    apply negb_true_iff in Hne. cbn [chat]. now rewrite Hne, Hq.
  - cbn [app]. destruct k as [text| |]; try reflexivity.
    cbn [chat].
    destruct (String.eqb (strip host text) ""); [apply IH |].
    destruct (is_quit (strip host text)); [reflexivity |].
    destruct (agent_run host (strip host text) _) as [output|e]; [apply IH |].
    destruct (caught_by_Exception e); [apply IH | reflexivity].
Qed.

End CommandLineChat.

(** X18. The command-line program does not start without its
    configuration: when [OPENAI_API_KEY] is unset or empty, or when the
    credentials file does not exist, [main] writes one line to standard
    error and exits with status 1; the server is not launched, the agent is
    not run and nothing is read from the keyboard. *)
Theorem cli_refuses_to_start_unconfigured
    (host : mcp_cli.Host) (keyboard : list mcp_cli.Keyboard) :
  truthy_str (mcp_cli.OPENAI_API_KEY host) = false
  \/ mcp_cli.isfile host (mcp_cli.DBT_ENV host) = false ->
  fst (mcp_cli.main host keyboard) = Raise mcp_cli.exit_1
  /\ (exists line, snd (mcp_cli.main host keyboard) = [mcp_cli.Stderr line])
  /\ mcp_cli.launches (snd (mcp_cli.main host keyboard)) = []
  /\ mcp_cli.runs (snd (mcp_cli.main host keyboard)) = []
  /\ mcp_cli.main host keyboard = mcp_cli.main host [].
Proof.
  intros Hbad. unfold mcp_cli.main.
  destruct (truthy_str (mcp_cli.OPENAI_API_KEY host)); cbn [negb].
  - destruct Hbad as [Hkey | Hfile]; [discriminate |].
    rewrite Hfile. cbn [negb fst snd].
    repeat split; try reflexivity. eexists; reflexivity.
  - cbn [fst snd]. repeat split; try reflexivity. eexists; reflexivity.
Qed.

Lemma cli_refuses_to_start_unconfigured_witness :
  mcp_cli.isfile mcp_cli.without_file (mcp_cli.DBT_ENV mcp_cli.without_file) = false
  /\ fst (mcp_cli.main mcp_cli.without_file [mcp_cli.Line "What tables do we have?"])
     = Raise mcp_cli.exit_1.
Proof.
  split; [reflexivity |].
  apply (cli_refuses_to_start_unconfigured mcp_cli.without_file
           [mcp_cli.Line "What tables do we have?"]).
  right. reflexivity.
Defined.

(** X19. The agent is only ever run on a real question: every prompt
    handed to [agent.run] is the stripped text of a line that was typed,
    is not empty and is not one of the commands [/exit] and [/quit]. *)
Theorem cli_runs_only_typed_questions
    (host : mcp_cli.Host) (keyboard : list mcp_cli.Keyboard) (user : string) :
  In user (mcp_cli.runs (snd (mcp_cli.main host keyboard))) ->
  user <> "" /\ user <> "/exit" /\ user <> "/quit"
  /\ exists text, In (mcp_cli.Line text) keyboard /\ user = mcp_cli.strip host text.
Proof.
  intros Hin.
  assert (Hruns : user <> "" /\ mcp_cli.is_quit user = false
                  /\ exists text, In (mcp_cli.Line text) keyboard
                                  /\ user = mcp_cli.strip host text).
  { unfold mcp_cli.main in Hin.
    destruct (negb (truthy_str (mcp_cli.OPENAI_API_KEY host))); [destruct Hin |].
    destruct (negb (mcp_cli.isfile host (mcp_cli.DBT_ENV host))); [destruct Hin |].
    destruct (mcp_cli.agent_enter host _); [| destruct Hin].
    match type of Hin with
    | context [mcp_cli.chat host keyboard ?io0] =>
        destruct (chat_extends host keyboard io0) as [added [Hsnd [_ Hadded]]];
        destruct (mcp_cli.chat host keyboard io0) as [r io1]
    end.
    cbn [snd] in Hsnd. subst io1.
    assert (Hin' : In user (mcp_cli.runs added)).
    { destruct (mcp_cli.agent_exit host _); cbn [snd] in Hin;
        rewrite !runs_app in Hin; cbn in Hin; rewrite app_nil_r in Hin; exact Hin. }
    now apply Hadded. }
  destruct Hruns as [Hne [Hq Htext]].
  unfold mcp_cli.is_quit in Hq. apply orb_false_iff in Hq. destruct Hq as [He Hqq].
  apply String.eqb_neq in He. apply String.eqb_neq in Hqq.
  repeat split; assumption.
Qed.

Lemma cli_runs_only_typed_questions_witness :
  mcp_cli.runs (snd (mcp_cli.main mcp_cli.echoing
                       [mcp_cli.Line "   "; mcp_cli.Line "  What tables do we have?";
                        mcp_cli.Line "/quit"; mcp_cli.Line "Never asked"]))
  = ["What tables do we have?"]
  /\ "What tables do we have?" <> "/exit".
Proof.
  split; [vm_compute; reflexivity |].
  apply (cli_runs_only_typed_questions mcp_cli.echoing
           [mcp_cli.Line "   "; mcp_cli.Line "  What tables do we have?";
            mcp_cli.Line "/quit"; mcp_cli.Line "Never asked"]
           "What tables do we have?").
  vm_compute. now left.
Defined.



(** X21. Nothing typed after the session has ended is looked at: after a
    quit command, the end of the input or an interrupt at the prompt, the
    program behaves as if nothing more had been typed. *)
Theorem cli_ignores_input_after_the_end
    (host : mcp_cli.Host) (before after : list mcp_cli.Keyboard)
    (key : mcp_cli.Keyboard) :
  mcp_cli.ends_the_chat host key = true ->
  mcp_cli.main host (before ++ key :: after) = mcp_cli.main host (before ++ [key]).
Proof.
  intros Hend. unfold mcp_cli.main.
  destruct (negb (truthy_str (mcp_cli.OPENAI_API_KEY host))); [reflexivity |].
  destruct (negb (mcp_cli.isfile host (mcp_cli.DBT_ENV host))); [reflexivity |].
  destruct (mcp_cli.agent_enter host _); [| reflexivity].
  now rewrite (chat_stops host before after key Hend).
Qed.

Lemma cli_ignores_input_after_the_end_witness :
  mcp_cli.ends_the_chat mcp_cli.echoing (mcp_cli.Line "/exit") = true
  /\ mcp_cli.main mcp_cli.echoing
       [mcp_cli.Line "hello"; mcp_cli.Line "/exit"; mcp_cli.Line "Never asked"]
     = mcp_cli.main mcp_cli.echoing [mcp_cli.Line "hello"; mcp_cli.Line "/exit"].
Proof.
  split; [reflexivity |].
  exact (cli_ignores_input_after_the_end mcp_cli.echoing [mcp_cli.Line "hello"]
           [mcp_cli.Line "Never asked"] (mcp_cli.Line "/exit") eq_refl).
Defined.

(** X22. Once the agent has been entered, leaving it is the last thing
    [main] does, whatever is typed and however the chat ends: by a quit
    command, at the end of the input, or by an exception that a run lets
    out, a user interrupt included. *)
Theorem cli_always_leaves_the_agent
    (host : mcp_cli.Host) (keyboard : list mcp_cli.Keyboard) :
  truthy_str (mcp_cli.OPENAI_API_KEY host) = true ->
  mcp_cli.isfile host (mcp_cli.DBT_ENV host) = true ->
  (forall io, mcp_cli.agent_enter host io = Return tt) ->
  exists io, snd (mcp_cli.main host keyboard) = (io ++ [mcp_cli.Shutdown])%list.
Proof.
  intros Hkey Hfile Henter.
  unfold mcp_cli.main. rewrite Hkey, Hfile. cbn [negb]. rewrite Henter.
  destruct (mcp_cli.chat host keyboard _) as [r io1].
  destruct (mcp_cli.agent_exit host _); cbn [snd]; eexists; reflexivity.
Qed.

Lemma cli_always_leaves_the_agent_witness :
  truthy_str (mcp_cli.OPENAI_API_KEY mcp_cli.interrupted_run) = true
  /\ fst (mcp_cli.main mcp_cli.interrupted_run [mcp_cli.Line "What tables do we have?"])
     = Raise (mkExn KeyboardInterrupt "")
  /\ exists io,
       snd (mcp_cli.main mcp_cli.interrupted_run [mcp_cli.Line "What tables do we have?"])
       = (io ++ [mcp_cli.Shutdown])%list.
Proof.
  split; [reflexivity |]. split; [vm_compute; reflexivity |].
  apply (cli_always_leaves_the_agent mcp_cli.interrupted_run
           [mcp_cli.Line "What tables do we have?"]); reflexivity.
Defined.

(** * The chat page *)

Section ChatPage.
Import app.
Variable host : Host.

(** What leaves [ask_agent] is not an [Exception]. *)
Lemma ask_agent_raises_uncaught (get : Outcome Agent) (question : string) (e : Exn) :
  ask_agent get question = Raise e -> caught_by_Exception e = false.
Proof.
  unfold ask_agent.
  match goal with
  | |- match ?body with _ => _ end = _ -> _ => destruct body as [v|e0]
  end; [discriminate |].
  unfold caught_by_Exception.
  destruct (exn_class e0) eqn:Hclass; cbn [is_Exception]; try discriminate;
    intros H; inversion H; subst; rewrite Hclass; reflexivity.
Qed.

(** No example button returns true when none was clicked. *)
Lemma example_buttons_not_clicked (questions : list string) (clicked : Interaction)
    (messages : list ChatMessage) :
  (forall j, clicked <> ClickExample j) ->
  forall i, example_buttons host questions i clicked messages = (Completed, messages).
Proof.
  intros Hnot. induction questions as [|q rest IH]; intros i; cbn; [reflexivity |].
  destruct clicked as [|j| |prompt]; try apply IH.
  exfalso. now apply (Hnot j).
Qed.

(** The button of the example that was clicked asks its question. *)
Lemma example_buttons_clicked (questions : list string) (messages : list ChatMessage) :
  forall (i k : nat) (question : string),
    nth_error questions k = Some question ->
    example_buttons host questions i (ClickExample (i + k)) messages
    = match ask_agent (get_agent host) question with
      | Return response =>
          (Rerun, (messages ++ [user_says question; assistant_says response])%list)
      | Raise e => (Raised e, (messages ++ [user_says question])%list)
      end.
Proof.
  induction questions as [|q rest IH]; intros i k question Hnth.
  - destruct k; discriminate.
  - destruct k as [|k]; cbn [example_buttons nth_error] in *.
    + inversion Hnth; subst. rewrite Nat.add_0_r, Nat.eqb_refl.
      destruct (ask_agent (get_agent host) question) as [v|e] eqn:Hask.
      * rewrite <- app_assoc. reflexivity.
      * now rewrite (ask_agent_raises_uncaught _ _ _ Hask).
    + assert (Hne : Nat.eqb (i + S k) i = false) by (apply Nat.eqb_neq; lia).
      rewrite Hne. replace (i + S k) with (S i + k) by lia. now apply IH.
Qed.

(** Whatever was clicked, the buttons only add to the messages. *)
Lemma example_buttons_extends (questions : list string) (clicked : Interaction)
    (messages : list ChatMessage) :
  forall i, exists added,
    snd (example_buttons host questions i clicked messages) = (messages ++ added)%list.
Proof.
  induction questions as [|q rest IH]; intros i; cbn.
  - exists []. now rewrite app_nil_r.
  - destruct (match clicked with ClickExample j => Nat.eqb j i | _ => false end);
      [| apply IH].
    destruct (ask_agent (get_agent host) q) as [v|e]; cbn [snd].
    + eexists. rewrite <- app_assoc. reflexivity.
    + destruct (caught_by_Exception e); cbn [snd]; eexists;
        [rewrite <- app_assoc |]; reflexivity.
Qed.

(** A question typed into the chat, when the key is set. *)
Lemma chat_input_typed (c : ascii) (rest : string) (state : SessionState) :
  truthy_str (OPENAI_API_KEY host) = true ->
  let messages := match state with
                  | Some messages => messages
                  | None => [welcome]
                  end in
  interact host (ChatInput (String c rest)) state
  = match ask_agent (get_agent host) (String c rest) with
    | Return response =>
        (Completed,
         Some (messages ++ [user_says (String c rest); assistant_says response])%list,
         (messages ++ [user_says (String c rest); assistant_says response])%list)
    | Raise e =>
        (Raised e,
         Some (messages ++ [user_says (String c rest)])%list,
         (messages ++ [user_says (String c rest)])%list)
    end.
Proof.
  intros Hkey. cbv zeta.
  unfold interact, script. rewrite Hkey. cbn [negb].
  rewrite example_buttons_not_clicked by (intros j; discriminate).
  destruct (ask_agent (get_agent host) (String c rest)) as [v|e] eqn:Hask.
  - rewrite <- app_assoc. reflexivity.
  - now rewrite (ask_agent_raises_uncaught _ _ _ Hask).
Qed.

Lemma script_keeps_welcome (clicked : Interaction) (state : SessionState) :
  welcomed state -> welcomed (snd (fst (script host clicked state))).
Proof.
  intros Hgood. unfold script.
  destruct (negb (truthy_str (OPENAI_API_KEY host))); [exact Hgood |].
  set (messages := match state with Some m => m | None => [welcome] end).
  assert (Hhead : exists rest, messages = welcome :: rest).
  { subst messages. destruct Hgood as [Hnone | [rest Hsome]]; subst state.
    - now exists [].
    - now exists rest. }
  destruct Hhead as [rest Hhead].
  destruct (example_buttons_extends example_questions clicked messages 0)
    as [added Hsnd].
  destruct (example_buttons host example_questions 0 clicked messages)
    as [ending messages1].
  cbn [snd] in Hsnd. subst messages1. rewrite Hhead.
  assert (Hkeep : forall more,
             welcomed (Some (((welcome :: rest) ++ added) ++ more)%list)).
  { intros more. right. eexists. cbn [app]. reflexivity. }
  assert (Hkeep0 : welcomed (Some ((welcome :: rest) ++ added)%list)).
  { right. eexists. cbn [app]. reflexivity. }
  destruct ending; cbn [fst snd]; try exact Hkeep0.
  destruct clicked as [|j| |[|c prompt]]; cbn [fst snd]; try exact Hkeep0.
  - right. now exists [].
  - destruct (ask_agent (get_agent host) (String c prompt)) as [v|e]; cbn [fst snd].
    + rewrite <- app_assoc. apply Hkeep.
    + destruct (caught_by_Exception e); cbn [fst snd];
        [rewrite <- app_assoc |]; apply Hkeep.
Qed.

End ChatPage.

(** X23. A question typed into the chat adds to the transcript the
    question, as a user message, and then what [ask_agent] returned, as an
    assistant message, and both are put on the page after the earlier
    messages.  The page's own error message is never used: [ask_agent] lets
    no [Exception] out, and an exception of another kind ends the run with
    only the question added. *)
Theorem chat_input_adds_question_and_answer
    (host : app.Host) (c : ascii) (rest : string) (state : app.SessionState) :
  truthy_str (app.OPENAI_API_KEY host) = true ->
  let prompt := String c rest in
  let messages := match state with
                  | Some messages => messages
                  | None => [app.welcome]
                  end in
  match ask_agent (app.get_agent host) prompt with
  | Return response =>
      app.interact host (app.ChatInput prompt) state
      = (app.Completed,
         Some (messages ++ [app.user_says prompt; app.assistant_says response])%list,
         (messages ++ [app.user_says prompt; app.assistant_says response])%list)
  | Raise e =>
      caught_by_Exception e = false
      /\ app.interact host (app.ChatInput prompt) state
         = (app.Raised e,
            Some (messages ++ [app.user_says prompt])%list,
            (messages ++ [app.user_says prompt])%list)
  end.
Proof.
  intros Hkey. cbv zeta.
  unfold app.interact, app.script. rewrite Hkey. cbn [negb].
  rewrite (example_buttons_not_clicked host) by (intros j; discriminate).
  destruct (ask_agent (app.get_agent host) (String c rest)) as [v|e] eqn:Hask.
  - rewrite <- app_assoc. reflexivity.
  - pose proof (ask_agent_raises_uncaught _ _ _ Hask) as Hun.
    split; [exact Hun |]. rewrite Hun. reflexivity.
Qed.

Lemma chat_input_adds_question_and_answer_witness :
  truthy_str (app.OPENAI_API_KEY app.answering) = true
  /\ app.interact app.answering (app.ChatInput "What tables do we have?") None
     = (app.Completed,
        Some [app.welcome; app.user_says "What tables do we have?";
              app.assistant_says (Str "3 tables: a, b, c")],
        [app.welcome; app.user_says "What tables do we have?";
         app.assistant_says (Str "3 tables: a, b, c")]).
Proof.
  split; [reflexivity |].
  exact (chat_input_adds_question_and_answer app.answering "W"%char
           "hat tables do we have?" None eq_refl).
Defined.

(** X24. Clicking an example question leaves the same transcript as
    typing that question into the chat: the earlier messages, the question
    and the answer of [ask_agent]. *)
Theorem example_click_is_like_typing
    (host : app.Host) (i : nat) (question : string) (response : Value)
    (state : app.SessionState) :
  truthy_str (app.OPENAI_API_KEY host) = true ->
  nth_error app.example_questions i = Some question ->
  ask_agent (app.get_agent host) question = Return response ->
  let messages := match state with
                  | Some messages => messages
                  | None => [app.welcome]
                  end in
  app.interact host (app.ClickExample i) state
  = (app.Completed,
     Some (messages ++ [app.user_says question; app.assistant_says response])%list,
     (messages ++ [app.user_says question; app.assistant_says response])%list)
  /\ app.interact host (app.ClickExample i) state
     = app.interact host (app.ChatInput question) state.
Proof.
  intros Hkey Hnth Hask. cbv zeta.
  assert (Hclick : app.interact host (app.ClickExample i) state
                   = (app.Completed,
                      Some ((match state with
                             | Some messages => messages
                             | None => [app.welcome]
                             end)
                            ++ [app.user_says question; app.assistant_says response])%list,
                      ((match state with
                        | Some messages => messages
                        | None => [app.welcome]
                        end)
                       ++ [app.user_says question; app.assistant_says response])%list)).
  { unfold app.interact, app.script. rewrite Hkey. cbn [negb].
    rewrite (example_buttons_clicked host app.example_questions _ 0 i question Hnth).
    rewrite Hask.
    rewrite (example_buttons_not_clicked host) by (intros j; discriminate).
    reflexivity. }
  split; [exact Hclick |]. rewrite Hclick.
  assert (Hfirst : exists c rest, question = String c rest).
  { do 6 (destruct i as [|i]; [inversion Hnth; eexists _, _; reflexivity |]).
    destruct i; discriminate. }
  destruct Hfirst as [c [rest Hq]]. subst question.
  pose proof (chat_input_typed host c rest state Hkey) as Htyped.
  rewrite Hask in Htyped. now rewrite Htyped.
Qed.

Lemma example_click_is_like_typing_witness :
  nth_error app.example_questions 0 = Some "What tables do we have?"
  /\ app.interact app.answering (app.ClickExample 0) None
     = app.interact app.answering (app.ChatInput "What tables do we have?") None.
Proof.
  split; [reflexivity |].
  exact (proj2 (example_click_is_like_typing app.answering 0
                  "What tables do we have?" (Str "3 tables: a, b, c") None
                  eq_refl eq_refl eq_refl)).
Defined.

(** X25. In every session state a sequence of interactions can lead to,
    the transcript, once it exists, begins with the welcome message: no
    question, answer, failure or clearing of the conversation removes it or
    puts anything before it. *)
Theorem transcript_begins_with_welcome (state : app.SessionState) :
  app.reachable state ->
  state = None \/ exists rest, state = Some (app.welcome :: rest).
Proof.
  induction 1 as [|host clicked state Hreach IH].
  - now left.
  - unfold app.interact.
    pose proof (script_keeps_welcome host clicked state IH) as Hfirst.
    destruct (app.script host clicked state) as [[ending state1] shown].
    cbn [fst snd] in Hfirst.
    destruct ending; try exact Hfirst.
    apply (script_keeps_welcome host app.Idle state1 Hfirst).
Qed.

Lemma transcript_begins_with_welcome_witness :
  app.reachable (Some [app.welcome])
  /\ (Some [app.welcome] = None
      \/ exists rest, Some [app.welcome] = Some (app.welcome :: rest)).
Proof.
  assert (Hreach : app.reachable (Some [app.welcome])).
  { exact (app.reachable_interact app.answering app.ClickClear None app.reachable_new). }
  split; [exact Hreach |].
  exact (transcript_begins_with_welcome (Some [app.welcome]) Hreach).
Defined.

(** * The client when standard output can fail *)

Section Extensionality.
Context {S : Type}.

Lemma bind_ext {A B} (m m' : M S A) (k k' : A -> M S B) :
  (forall s, m s = m' s) ->
  (forall a s, k a s = k' a s) ->
  forall s, bind m k s = bind m' k' s.
Proof.
  intros Hm Hk s. unfold bind. rewrite Hm.
  destruct (m' s) as [[a|e] s']; [apply Hk | reflexivity].
Qed.

Lemma try_except_Exception_ext {A} (body body' : M S A) (handler handler' : Exn -> M S A) :
  (forall s, body s = body' s) ->
  (forall e s, handler e s = handler' e s) ->
  forall s, try_except_Exception body handler s = try_except_Exception body' handler' s.
Proof.
  intros Hb Hh s. unfold try_except_Exception. rewrite Hb.
  destruct (body' s) as [[a|e] s']; [reflexivity |].
  destruct (caught_by_Exception e); [apply Hh | reflexivity].
Qed.

Lemma try_finally_ext {A} (body body' : M S A) (cleanup : M S unit) :
  (forall s, body s = body' s) ->
  forall s, try_finally body cleanup s = try_finally body' cleanup s.
Proof. intros Hb s. unfold try_finally. now rewrite Hb. Qed.

Lemma for_each_ext {A} (l : list A) (body body' : A -> M S unit) :
  (forall x s, body x s = body' x s) ->
  forall s, for_each l body s = for_each l body' s.
Proof.
  intros Hb. induction l as [|x rest IH]; intros s; cbn; [reflexivity |].
  apply bind_ext; [apply Hb | intros _ s'; apply IH].
Qed.

End Extensionality.

(** When standard output takes every line, the client with a standard
    output is the client of [mcp_client]. *)
Section EveryLineWritten.
Variable out : Stdout.
Variable env : Env.
Hypothesis Hout : forall line t, out line t = Return tt.

Lemma print_written (line : string) (f : Frame) :
  Printing.print out line f = mcp_client.print line f.
Proof. unfold Printing.print. now rewrite Hout. Qed.

Ltac same :=
  intros;
  first
    [ reflexivity
    | apply print_written
    | apply bind_ext; same
    | apply try_except_Exception_ext; same
    | apply try_finally_ext; same
    | apply for_each_ext; same
    | match goal with
      | |- (if ?b then _ else _) _ = (if ?b then _ else _) _ => destruct b; same
      | |- (match ?x with _ => _ end) _ = (match ?x with _ => _ end) _ =>
          destruct x; same
      end ].

Lemma _list_available_tools_written (f : Frame) :
  Printing._list_available_tools out env f = mcp_client._list_available_tools env f.
Proof. unfold Printing._list_available_tools, mcp_client._list_available_tools. same. Qed.

Lemma connect_written (f : Frame) :
  Printing.connect out env f = mcp_client.connect env f.
Proof.
  unfold Printing.connect, mcp_client.connect.
  apply bind_ext; [reflexivity |]. intros c s.
  destruct (_connected c); [apply print_written |].
  apply try_except_Exception_ext.
  - unfold Printing.connect_try, mcp_client.connect_try.
    repeat (apply bind_ext; [reflexivity |]; intros).
    apply bind_ext; [apply print_written |]. intros.
    apply _list_available_tools_written.
  - intros e s0. unfold Printing.connect_except, mcp_client.connect_except. same.
Qed.

Lemma close_written (f : Frame) :
  Printing.close out env f = mcp_client.close env f.
Proof. unfold Printing.close, mcp_client.close. same. Qed.

Lemma call_tool_written (tool_name : string) (arguments : option Arguments) (f : Frame) :
  Printing.call_tool out env tool_name arguments f
  = mcp_client.call_tool env tool_name arguments f.
Proof. unfold Printing.call_tool, mcp_client.call_tool. same. Qed.

End EveryLineWritten.

Section FallibleOutput.
Variable out : Stdout.
Variable env : Env.

(** What the unwinding loop gives is the last exception an exit raised. *)
Lemma unwind_last_raised (stack : list Resource) :
  forall (pending : option Exn) (f : Frame),
    exit_stack (self f) = Some stack ->
    unwind env stack pending f
    = (match Printing.last_raised env (trace f) stack pending with
       | None => Return tt
       | Some e => Raise e
       end,
       mkFrame (mkClient (session (self f)) (Some []) (_connected (self f)))
               (trace f ++ map ExitContext stack)%list).
Proof.
  induction stack as [|res rest IH]; intros pending f Hstack.
  - cbn [unwind map Printing.last_raised]. rewrite app_nil_r.
    destruct f as [[s st k] tr]; cbn in Hstack |- *; subst st.
    destruct pending; reflexivity.
  - cbn [unwind map Printing.last_raised].
    unfold bind at 1, set_exit_stack; cbn [self trace session _connected].
    unfold bind at 1, emit; cbn [self trace session exit_stack _connected].
    destruct (env_exit env res (trace f ++ [ExitContext res])%list);
      rewrite IH by reflexivity;
      cbn [self trace session exit_stack _connected];
      rewrite <- app_assoc; reflexivity.
Qed.

(** [close] with an exit stack, in full. *)
Lemma close_with_stack (c : DBTMCPClient) (tr : Trace) (stack : list Resource) :
  exit_stack c = Some stack ->
  let unwound := (tr ++ map ExitContext stack)%list in
  let report e :=
    match out ("Error closing connection: " ++ exn_str e) unwound with
    | Return _ =>
        (Return tt,
         mkFrame __init__
                 (unwound ++ [Print ("Error closing connection: " ++ exn_str e)])%list)
    | Raise e' => (Raise e', mkFrame __init__ unwound)
    end in
  Printing.close out env (mkFrame c tr)
  = match Printing.last_raised env tr stack None with
    | Some e =>
        if caught_by_Exception e then report e
        else (Raise e, mkFrame __init__ unwound)
    | None =>
        match out "MCP Server connection closed" unwound with
        | Return _ =>
            (Return tt,
             mkFrame __init__ (unwound ++ [Print "MCP Server connection closed"])%list)
        | Raise e =>
            if caught_by_Exception e then report e
            else (Raise e, mkFrame __init__ unwound)
        end
    end.
Proof.
  intros Hstack. cbv zeta.
  destruct c as [s st k]. cbn [exit_stack] in Hstack. subst st.
  unfold Printing.close, bind at 1, get_self. cbn [self exit_stack truthy].
  unfold try_finally, try_except_Exception.
  unfold bind at 1, aclose, bind at 1, get_self. cbn [self exit_stack].
  rewrite unwind_last_raised by reflexivity.
  cbn [self trace session exit_stack _connected].
  destruct (Printing.last_raised env tr stack None) as [e|].
  - destruct (caught_by_Exception e).
    + unfold Printing.print. cbn [self trace].
      destruct (out _ _) as [[]|e']; reflexivity.
    + reflexivity.
  - unfold Printing.print at 1. cbn [self trace].
    destruct (out "MCP Server connection closed" _) as [[]|e]; [reflexivity |].
    destruct (caught_by_Exception e); [| reflexivity].
    unfold Printing.print. cbn [self trace].
    destruct (out _ _) as [[]|e']; reflexivity.
Qed.

Lemma close_without_stack (c : DBTMCPClient) (tr : Trace) :
  exit_stack c = None ->
  Printing.close out env (mkFrame c tr) = (Return tt, mkFrame c tr).
Proof.
  intros Hnone. unfold Printing.close, bind, get_self. cbn [self].
  now rewrite Hnone.
Qed.

(** Whatever the exits and standard output do, [close] on a client with an
    exit stack leaves the client as it was constructed. *)
Lemma close_always_resets (c : DBTMCPClient) (tr : Trace) (stack : list Resource) :
  exit_stack c = Some stack ->
  exists r log,
    Printing.close out env (mkFrame c tr)
    = (r, mkFrame __init__ ((tr ++ map ExitContext stack) ++ log)%list).
Proof.
  intros Hstack. rewrite (close_with_stack c tr stack Hstack). cbv zeta.
  assert (Hreport : forall e,
            exists r log,
              match out ("Error closing connection: " ++ exn_str e)
                        (tr ++ map ExitContext stack)%list with
              | Return _ =>
                  (Return tt,
                   mkFrame __init__
                     ((tr ++ map ExitContext stack)
                      ++ [Print ("Error closing connection: " ++ exn_str e)])%list)
              | Raise e' => (Raise e', mkFrame __init__ (tr ++ map ExitContext stack)%list)
              end
              = (r, mkFrame __init__ ((tr ++ map ExitContext stack) ++ log)%list)).
  { intros e. destruct (out _ _) as [[]|e'].
    - eexists _, _. reflexivity.
    - exists (Raise e'), []. now rewrite app_nil_r. }
  destruct (Printing.last_raised env tr stack None) as [e|].
  - destruct (caught_by_Exception e); [apply Hreport |].
    exists (Raise e), []. now rewrite app_nil_r.
  - destruct (out "MCP Server connection closed" _) as [[]|e].
    + eexists _, _. reflexivity.
    + destruct (caught_by_Exception e); [apply Hreport |].
      exists (Raise e), []. now rewrite app_nil_r.
Qed.

End FallibleOutput.

(** C8 (as amended). [close] does nothing on a client without an exit
    stack, as one that was never connected.  On a client with one it exits
    every context of the stack, the last entered first, and then, whatever
    the exits and the printing did, the flag is false and both handles are
    None.  What comes out of the unwinding is the last exception an exit
    raised: outside [Exception] it is raised by [close]; an [Exception] is
    caught and printed, and [close] then ends as that [print] ends.  [close]
    raises in no other way than these two: the exception of the unwinding
    when it is outside [Exception], or an exception raised by one of its own
    [print]s. *)
Theorem close_always_resets_and_logs_Exceptions
    (out : Stdout) (env : Env) (c : DBTMCPClient) (tr : Trace) :
  Printing.close out env (mkFrame __init__ tr) = (Return tt, mkFrame __init__ tr)
  /\ (exit_stack c = None ->
      Printing.close out env (mkFrame c tr) = (Return tt, mkFrame c tr))
  /\ (forall stack,
        exit_stack c = Some stack ->
        let unwound := (tr ++ map ExitContext stack)%list in
        let failure := Printing.last_raised env tr stack None in
        exists r log,
          Printing.close out env (mkFrame c tr)
          = (r, mkFrame (mkClient None None false) (unwound ++ log)%list)
          /\ filter is_io log = []
          /\ (forall e, failure = Some e -> caught_by_Exception e = false ->
                        r = Raise e)
          /\ (forall e, failure = Some e -> caught_by_Exception e = true ->
                        r = out ("Error closing connection: " ++ exn_str e) unwound)
          /\ (failure = None ->
              out "MCP Server connection closed" unwound = Return tt ->
              r = Return tt)
          /\ (forall e, r = Raise e ->
                (failure = Some e /\ caught_by_Exception e = false)
                \/ exists line, out line unwound = Raise e)).
Proof.
  split; [reflexivity |].
  split; [apply close_without_stack |].
  intros stack Hstack. cbv zeta.
  rewrite (close_with_stack out env c tr stack Hstack). cbv zeta.
  set (unwound := (tr ++ map ExitContext stack)%list).
  assert (Hreport : forall e,
            exists r log,
              match out ("Error closing connection: " ++ exn_str e) unwound with
              | Return _ =>
                  (Return tt,
                   mkFrame __init__
                     (unwound ++ [Print ("Error closing connection: " ++ exn_str e)])%list)
              | Raise e' => (Raise e', mkFrame __init__ unwound)
              end = (r, mkFrame (mkClient None None false) (unwound ++ log)%list)
              /\ filter is_io log = []
              /\ r = out ("Error closing connection: " ++ exn_str e) unwound
              /\ forall e', r = Raise e' -> exists line, out line unwound = Raise e').
  { intros e.
    destruct (out ("Error closing connection: " ++ exn_str e) unwound) as [[]|e'] eqn:Hout.
    - eexists (Return tt), _. repeat split; try reflexivity. discriminate.
    - exists (Raise e'), []. rewrite app_nil_r. repeat split; try reflexivity.
      intros e'' H. inversion H; subst. eexists; exact Hout. }
  destruct (Printing.last_raised env tr stack None) as [e|].
  - destruct (caught_by_Exception e) eqn:Hcaught.
    + destruct (Hreport e) as [r [log [Hrun [Hio [Hr Hfrom]]]]].
      exists r, log. rewrite Hrun.
      split; [reflexivity |]. split; [exact Hio |].
      split; [intros e0 H0 Hun; injection H0 as <-; congruence |].
      split; [intros e0 H0 _; injection H0 as <-; exact Hr |].
      split; [discriminate |].
      intros e0 H0. right. now apply Hfrom.
    + exists (Raise e), []. rewrite app_nil_r.
      split; [reflexivity |]. split; [reflexivity |].
      split; [intros e0 H0 _; now inversion H0 |].
      split; [intros e0 H0 Hc; inversion H0; subst; congruence |].
      split; [discriminate |].
      intros e0 H0. inversion H0; subst. left. now split.
  - destruct (out "MCP Server connection closed" unwound) as [[]|e] eqn:Hclosed.
    + eexists (Return tt), _.
      split; [reflexivity |]. split; [reflexivity |].
      repeat split; try discriminate; reflexivity.
    + destruct (caught_by_Exception e) eqn:Hcaught.
      * destruct (Hreport e) as [r [log [Hrun [Hio [Hr Hfrom]]]]].
        exists r, log. rewrite Hrun.
        split; [reflexivity |]. split; [exact Hio |].
        repeat split; try discriminate.
        intros e0 H0. right. now apply Hfrom.
      * exists (Raise e), []. rewrite app_nil_r.
        split; [reflexivity |]. split; [reflexivity |].
        repeat split; try discriminate.
        intros e0 H0. inversion H0; subst. right. eexists; exact Hclosed.
Qed.

(** An interrupt raised by one exit is overtaken by the failure of a later
    one: [close] prints that failure and returns. *)
Example close_swallows_an_overtaken_interrupt :
  Printing.close Printing.writes Printing.interrupt_then_failure
    (mkFrame Scenarios.connected_client [])
  = (Return tt,
     mkFrame __init__
             [ExitContext (SessionContext (mkSession 1));
              ExitContext (StdioStreams 1);
              Print "Error closing connection: cancel scope"]).
Proof. reflexivity. Qed.

(** When the teardown fails and the line that reports it cannot be printed,
    an [Exception] comes out of [close]; the client is reset all the same. *)
Example close_raises_when_the_report_cannot_be_printed :
  Printing.close (fun _ _ => Raise (mkExn (OtherException "BrokenPipeError") "Broken pipe"))
    Scenarios.teardown_fails (mkFrame Scenarios.connected_client [])
  = (Raise (mkExn (OtherException "BrokenPipeError") "Broken pipe"),
     mkFrame __init__
             [ExitContext (SessionContext (mkSession 1));
              ExitContext (StdioStreams 1)]).
Proof. reflexivity. Qed.

Lemma close_always_resets_and_logs_Exceptions_witness :
  exit_stack Scenarios.connected_client
  = Some [SessionContext (mkSession 1); StdioStreams 1]
  /\ exists r log,
       Printing.close Printing.writes Scenarios.teardown_fails
         (mkFrame Scenarios.connected_client [])
       = (r, mkFrame (mkClient None None false)
               ([ExitContext (SessionContext (mkSession 1));
                 ExitContext (StdioStreams 1)] ++ log)%list)
       /\ filter is_io log = []
       /\ r = Return tt.
Proof.
  split; [reflexivity |].
  destruct (proj2 (proj2 (close_always_resets_and_logs_Exceptions
                            Printing.writes Scenarios.teardown_fails
                            Scenarios.connected_client []))
              [SessionContext (mkSession 1); StdioStreams 1] eq_refl)
    as [r [log [Hrun [Hio [_ [Hlogged _]]]]]].
  exists r, log. split; [exact Hrun |]. split; [exact Hio |].
  exact (Hlogged (mkExn RuntimeError "cancel scope") eq_refl eq_refl).
Defined.

Section PrintingOnly.
Variable out : Stdout.

Lemma print_only_prints (line : string) : Printing.only_prints out (Printing.print out line).
Proof.
  intros f. unfold Printing.print.
  destruct (out line (trace f)) as [[]|e] eqn:Hout.
  - exists (Return tt), [Print line]. repeat split; try reflexivity. discriminate.
  - exists (Raise e), []. rewrite app_nil_r. destruct f.
    repeat split; try reflexivity.
    intros e' H. injection H as <-. now exists line, trace0.
Qed.

Lemma ret_only_prints {A} (a : A) : Printing.only_prints out (ret a).
Proof.
  intros f. exists (Return a), []. rewrite app_nil_r. destruct f.
  repeat split; try reflexivity. discriminate.
Qed.

Lemma bind_only_prints {A B} (m : Method A) (k : A -> Method B) :
  Printing.only_prints out m ->
  (forall a, Printing.only_prints out (k a)) ->
  Printing.only_prints out (bind m k).
Proof.
  intros Hm Hk f. unfold bind.
  destruct (Hm f) as [r [added [Hrun [Hio Hfrom]]]]. rewrite Hrun.
  destruct r as [a|e].
  - destruct (Hk a (mkFrame (self f) (trace f ++ added)%list))
      as [r' [added' [Hrun' [Hio' Hfrom']]]].
    cbn [self trace] in Hrun'. rewrite Hrun'.
    exists r', (added ++ added')%list.
    split; [now rewrite app_assoc |].
    split; [now rewrite filter_app, Hio, Hio' | exact Hfrom'].
  - exists (Raise e), added. repeat split; try assumption.
    intros e' H. injection H as <-. now apply Hfrom.
Qed.

Lemma for_each_only_prints {A} (body : A -> Method unit) (l : list A) :
  (forall x, Printing.only_prints out (body x)) ->
  Printing.only_prints out (for_each l body).
Proof.
  intros Hbody. induction l as [|x rest IH]; cbn [for_each].
  - apply ret_only_prints.
  - apply bind_only_prints; [apply Hbody | intros _; exact IH].
Qed.

End PrintingOnly.

(** X7. [_list_available_tools] never changes the client.  Without a
    session it does nothing at all; with one it sends exactly one list
    request, and everything else it adds to the history is printed lines.
    It raises in two ways only: the exception the list request raised, when
    that is outside [Exception], or an exception that one of its [print]s
    raised (the one of the handler included). *)
Theorem _list_available_tools_changes_nothing
    (out : Stdout) (env : Env) (f : Frame) :
  exists r added,
    Printing._list_available_tools out env f
    = (r, mkFrame (self f) (trace f ++ added)%list)
    /\ match session (self f) with
       | None => r = Return tt /\ added = []
       | Some s =>
           filter is_io added = [ListTools s]
           /\ forall e, r = Raise e ->
                (env_list_tools env s (trace f ++ [ListTools s])%list = Raise e
                 /\ caught_by_Exception e = false)
                \/ exists line t, out line t = Raise e
       end.
Proof.
  destruct (session (self f)) as [s|] eqn:Hs.
  2:{ exists (Return tt), []. unfold Printing._list_available_tools, bind, get_self.
      rewrite Hs. unfold ret. rewrite app_nil_r. destruct f. now repeat split. }
  assert (Hhandler : forall e, Printing.only_prints out
            (Printing.print out ("Failed to list tools: " ++ exn_str e)))
    by (intros e; apply print_only_prints).
  remember (Printing._list_available_tools out env f) as run eqn:Hrun.
  unfold Printing._list_available_tools, bind at 1, get_self in Hrun.
  rewrite Hs in Hrun. unfold try_except_Exception in Hrun.
  unfold bind at 1, emit in Hrun; cbn [self trace] in Hrun.
  unfold bind at 1, ask in Hrun; cbn [self trace] in Hrun.
  set (asked := (trace f ++ [ListTools s])%list) in *.
  destruct (env_list_tools env s asked) as [tools|e] eqn:Hlist.
  - match type of Hrun with
    | context [bind ?m ?k (mkFrame (self f) asked)] =>
        assert (Hprints : Printing.only_prints out (bind m k))
    end.
    { apply bind_only_prints; [apply print_only_prints | intros _].
      apply bind_only_prints; [apply print_only_prints | intros _].
      apply bind_only_prints; [| intros _; apply print_only_prints].
      apply for_each_only_prints. intros tool.
      apply bind_only_prints; [apply print_only_prints | intros _].
      destruct (truthy_str (description tool));
        [apply print_only_prints | apply ret_only_prints]. }
    destruct (Hprints (mkFrame (self f) asked)) as [r [added [Hbody [Hio Hfrom]]]].
    cbn [self trace] in Hbody. rewrite Hbody in Hrun.
    destruct r as [[]|e].
    + exists (Return tt), (ListTools s :: added). subst run.
      split; [unfold asked; now rewrite <- app_assoc |].
      split; [cbn [filter is_io]; now rewrite Hio | discriminate].
    + destruct (caught_by_Exception e) eqn:Hcaught.
      * destruct (Hhandler e (mkFrame (self f) (asked ++ added)%list))
          as [r' [added' [Hh [Hio' Hfrom']]]].
        cbn [self trace] in Hh. rewrite Hh in Hrun.
        exists r', (ListTools s :: added ++ added')%list. subst run.
        split; [unfold asked; now rewrite <- !app_assoc |].
        split; [cbn [filter is_io]; now rewrite filter_app, Hio, Hio' |].
        intros e' H. right. now apply Hfrom'.
      * exists (Raise e), (ListTools s :: added). subst run.
        split; [unfold asked; now rewrite <- app_assoc |].
        split; [cbn [filter is_io]; now rewrite Hio |].
        intros e' H. injection H as <-. right. now apply Hfrom.
  - destruct (caught_by_Exception e) eqn:Hcaught.
    + destruct (Hhandler e (mkFrame (self f) asked)) as [r' [added' [Hh [Hio' Hfrom']]]].
      cbn [self trace] in Hh. rewrite Hh in Hrun.
      exists r', (ListTools s :: added')%list. subst run.
      split; [unfold asked; now rewrite <- app_assoc |].
      split; [cbn [filter is_io]; now rewrite Hio' |].
      intros e' H. right. now apply Hfrom'.
    + exists (Raise e), [ListTools s]. subst run.
      split; [reflexivity |]. split; [reflexivity |].
      intros e' H. injection H as <-. left. now split.
Qed.

(** X1. With a standard output that takes every line: when the subprocess
    starts, the session opens and the handshake succeeds, [connect] on a
    client that is not connected returns with the flag set, the session
    handle set and both contexts on the exit stack, also when the listing
    of the tools that follows fails with an [Exception]: that failure is
    only printed.  After the handshake exactly one further request is
    sent. *)
Theorem connect_succeeds_when_handshake_and_prints_do
    (out : Stdout) (env : Env) (c : DBTMCPClient) (tr : Trace) (t : Transport) :
  let s := mkSession t in
  let tr1 := (tr ++ [Spawn server_command server_args])%list in
  let tr2 := (tr1 ++ [EnterSession s])%list in
  let tr3 := (tr2 ++ [Initialize s])%list in
  let asked := (tr3 ++ [Print "Successfully connected to DBT MCP Server";
                        ListTools s])%list in
  (forall line h, out line h = Return tt) ->
  _connected c = false ->
  env_stdio_client env tr1 = Return t ->
  env_session_enter env s tr2 = Return tt ->
  env_initialize env s tr3 = Return tt ->
  (forall e, env_list_tools env s asked = Raise e -> caught_by_Exception e = true) ->
  exists printed,
    Printing.connect out env (mkFrame c tr)
    = (Return tt,
       mkFrame (mkClient (Some s) (Some [SessionContext s; StdioStreams t]) true)
               (asked ++ printed)%list)
    /\ filter is_io printed = [].
Proof.
  cbv zeta. intros Hout Hk Hspawn Henter Hinit Hlist.
  rewrite (connect_written out env Hout).
  now apply connect_after_handshake.
Qed.

Lemma connect_succeeds_when_handshake_and_prints_do_witness :
  _connected __init__ = false
  /\ exists printed,
       Printing.connect Printing.writes Worlds.listing_fails (mkFrame __init__ [])
       = (Return tt,
          mkFrame Scenarios.connected_client
                  ([Spawn server_command server_args;
                    EnterSession (mkSession 1);
                    Initialize (mkSession 1);
                    Print "Successfully connected to DBT MCP Server";
                    ListTools (mkSession 1)] ++ printed)%list)
       /\ filter is_io printed = [].
Proof.
  split; [reflexivity |].
  apply (connect_succeeds_when_handshake_and_prints_do
           Printing.writes Worlds.listing_fails __init__ [] 1);
    try reflexivity.
  intros e He. cbn in He. inversion He. reflexivity.
Defined.

(** X5. After [close] on a client that has an exit stack, or whose flag is
    already false, the flag is false and [call_tool] and [list_tools] raise
    the not-connected error without sending or printing anything, whether
    [close] returned or raised and whatever standard output did.  On a
    client without an exit stack [close] changes nothing, a raised flag
    included. *)
Theorem closed_client_refuses_every_request
    (out out' : Stdout) (env env' : Env) (c : DBTMCPClient) (tr : Trace)
    (tool_name : string) (arguments : option Arguments) :
  let closed := snd (Printing.close out env (mkFrame c tr)) in
  (exit_stack c <> None \/ _connected c = false ->
   _connected (self closed) = false
   /\ Printing.call_tool out' env' tool_name arguments closed
      = (Raise not_connected, closed)
   /\ list_tools env' closed = (Raise not_connected, closed))
  /\ (exit_stack c = None -> closed = mkFrame c tr).
Proof.
  cbv zeta. split.
  - intros Hc.
    assert (Hk : _connected (self (snd (Printing.close out env (mkFrame c tr)))) = false).
    { destruct (exit_stack c) as [stack|] eqn:Hstack.
      - destruct (close_always_resets out env c tr stack Hstack)
          as [r [log Hrun]].
        rewrite Hrun. reflexivity.
      - rewrite (close_without_stack out env c tr Hstack). cbn [snd self].
        destruct Hc as [Hne | Hflag]; [congruence | exact Hflag]. }
    split; [exact Hk |].
    destruct (snd (Printing.close out env (mkFrame c tr))) as [c' tr'].
    cbn [self] in Hk.
    unfold Printing.call_tool, list_tools, bind, get_self. cbn [self]. rewrite Hk.
    split; reflexivity.
  - intros Hnone. now rewrite (close_without_stack out env c tr Hnone).
Qed.

Lemma closed_client_refuses_every_request_witness :
  exit_stack Scenarios.connected_client <> None
  /\ list_tools Scenarios.healthy
       (snd (Printing.close Printing.ascii_console Scenarios.teardown_interrupted
               (mkFrame Scenarios.connected_client [])))
     = (Raise not_connected,
        snd (Printing.close Printing.ascii_console Scenarios.teardown_interrupted
               (mkFrame Scenarios.connected_client []))).
Proof.
  assert (Hstack : exit_stack Scenarios.connected_client <> None) by discriminate.
  split; [exact Hstack |].
  exact (proj2 (proj2 (proj1 (closed_client_refuses_every_request
                                Printing.ascii_console Printing.writes
                                Scenarios.teardown_interrupted Scenarios.healthy
                                Scenarios.connected_client [] "list_models" None)
                             (or_introl Hstack)))).
Defined.

(** C10, at the failing input: a new client on a console whose encoding is
    ASCII, the server refusing the list request with a message that has an
    accented letter.  The handshake succeeds and the flag is raised; the
    line that reports the refusal cannot be printed, so the listing raises
    UnicodeEncodeError into the [except] block of [connect], which prints,
    closes the exit stack, sets [exit_stack] to None and raises again.  The
    flag stays raised: it comes without an exit stack (and with the session
    that was closed), the guard of [call_tool] and [list_tools] lets
    requests through, and [close] does nothing on this client. *)
Theorem connect_leaves_flag_without_exit_stack :
  Printing.connect Printing.ascii_console Printing.refuses_in_french
    (mkFrame __init__ [])
  = (Raise (mkExn (OtherException "UnicodeEncodeError")
              "'ascii' codec can't encode character '\xea' in position 26: ordinal not in range(128)"),
     mkFrame Printing.torn_down_client
       [Spawn server_command server_args;
        EnterSession (mkSession 1);
        Initialize (mkSession 1);
        Print "Successfully connected to DBT MCP Server";
        ListTools (mkSession 1);
        Print "Failed to connect to MCP Server: 'ascii' codec can't encode character '\xea' in position 26: ordinal not in range(128)";
        ExitContext (SessionContext (mkSession 1));
        ExitContext (StdioStreams 1)])
  /\ _connected Printing.torn_down_client = true
  /\ exit_stack Printing.torn_down_client = None
  /\ ~ flag_implies_handles Printing.torn_down_client
  /\ guard Printing.torn_down_client = false
  /\ forall out env tr,
       Printing.close out env (mkFrame Printing.torn_down_client tr)
       = (Return tt, mkFrame Printing.torn_down_client tr).
Proof.
  split; [vm_compute; reflexivity |].
  split; [reflexivity |]. split; [reflexivity |].
  split.
  - intros Hinv. destruct (Hinv eq_refl) as [_ Hstack]. now apply Hstack.
  - split; reflexivity.
Qed.

(** C9, at the failing input: a process without a global instance, on a
    console whose encoding is ASCII, the server refusing the list request
    with a message that has an accented letter.  The first call of
    [get_mcp_client] constructs the instance and raises what its [connect]
    raises, after the session and the streams have been closed and with the
    flag left raised.  The next call, with a server and a standard output
    that are in order, takes the instance for connected: it returns it as
    it is, without a new connection. *)
Theorem get_mcp_client_returns_a_torn_down_instance :
  let first :=
    Printing.get_mcp_client Printing.ascii_console Printing.refuses_in_french
      Scenarios.fresh_process in
  first
  = (Raise (mkExn (OtherException "UnicodeEncodeError")
              "'ascii' codec can't encode character '\xea' in position 26: ordinal not in range(128)"),
     mkProcess [Printing.torn_down_client] (Some 0)
       [Spawn server_command server_args;
        EnterSession (mkSession 1);
        Initialize (mkSession 1);
        Print "Successfully connected to DBT MCP Server";
        ListTools (mkSession 1);
        Print "Failed to connect to MCP Server: 'ascii' codec can't encode character '\xea' in position 26: ordinal not in range(128)";
        ExitContext (SessionContext (mkSession 1));
        ExitContext (StdioStreams 1)])
  /\ Printing.get_mcp_client Printing.writes Scenarios.healthy (snd first)
     = (Return 0, snd first)
  /\ nth_error (objects (snd first)) 0 = Some Printing.torn_down_client
  /\ exit_stack Printing.torn_down_client = None.
Proof.
  cbv zeta. split; [vm_compute; reflexivity |].
  split; [vm_compute; reflexivity |].
  split; [vm_compute; reflexivity | reflexivity].
Qed.
